(** * Conversation store and message routing of [chatbot.py]

    A shallow embedding of [ChatMemory] and of
    [ChatInterface.process_message], with the OpenAI client, the file
    system and the image description service taken as collaborators. *)

From stdpp Require Import base option list strings gmap.

(** ** Exceptions and fallible computations *)

(** The Python exceptions that the modelled code can meet.  [External]
    stands for whatever a collaborator raises; it carries [str(e)]. *)
Inductive Exn : Type :=
| IndexError
| KeyError (key : string)
| External (msg : string).

(** [str(e)] as Python prints it inside the f-strings of the source. *)
Definition str (e : Exn) : string :=
  match e with
  | IndexError => "list index out of range"
  | KeyError key => "'" +:+ key +:+ "'"
  | External msg => msg
  end.

Inductive result (A : Type) : Type :=
| Ok (a : A)
| Raise (e : Exn).
Arguments Ok {A} a.
Arguments Raise {A} e.

(** Sequencing stops at the first exception; [x ← r; k] is stdpp's
    notation for [mbind]. *)
#[global] Instance result_ret : MRet result := λ A a, Ok a.
#[global] Instance result_bind : MBind result := λ A B k r,
  match r with
  | Ok a => k a
  | Raise e => Raise e
  end.

(** ** Data model *)

(** A content block is a dict of one of the two shapes the source builds:
    [{"type": "text", "text": t}] or
    [{"type": "image_url", "image_url": {"url": u}}]. *)
Inductive ContentBlock : Type :=
| TextBlock (text : string)
| ImageBlock (url : string).

(** [msg["content"]] is a [str] or a [list] of blocks. *)
Inductive Content : Type :=
| CStr (s : string)
| CList (blocks : list ContentBlock).

Record Message : Type := mkMessage {
  role : string;
  content : Content;
  has_image : bool;
  hide_prompt : bool
}.

(** One row of the chatbot widget: [(user text, assistant text)]. *)
Definition DisplayPair : Type := option string * option string.

Definition newline : string := String (Ascii.ascii_of_nat 10) EmptyString.

(** [block["text"]] *)
Definition block_text (b : ContentBlock) : result string :=
  match b with
  | TextBlock text => Ok text
  | ImageBlock _ => Raise (KeyError "text")
  end.

(** [block["image_url"]["url"]] *)
Definition block_image_url (b : ContentBlock) : result string :=
  match b with
  | ImageBlock url => Ok url
  | TextBlock _ => Raise (KeyError "image_url")
  end.

(** [l[i]] for a non-negative index. *)
Definition index {A : Type} (l : list A) (i : nat) : result A :=
  match l !! i with
  | Some a => Ok a
  | None => Raise IndexError
  end.

(** ** ChatMemory *)

Module ChatMemory.

(** [isinstance(msg["content"], list) and len(msg["content"]) > 1] *)
Definition multi_block (msg : Message) : bool :=
  match content msg with
  | CList blocks => bool_decide (1 < length blocks)
  | CStr _ => false
  end.

Definition add_message (conversation_history : list Message)
    (role : string) (content : Content)
    (has_image : bool) (hide_prompt : bool) : list Message :=
  (if has_image then conversation_history
   else filter (λ msg, multi_block msg = false) conversation_history)
  ++ [mkMessage role content has_image hide_prompt].

Definition get_history (conversation_history : list Message) : list Message :=
  conversation_history.

Definition clear (conversation_history : list Message) : list Message := [].

Definition img_markup (image_url : string) : string :=
  "<img src='" +:+ image_url +:+ "' width='400'>".

(** The inner loop of the [hide_prompt] branch, with its flag. *)
Fixpoint show_first_image (blocks : list ContentBlock) (has_shown_image : bool)
    : list DisplayPair :=
  match blocks with
  | [] => []
  | ImageBlock image_url :: rest =>
      if has_shown_image then show_first_image rest has_shown_image
      else (Some (img_markup image_url), None) :: show_first_image rest true
  | TextBlock _ :: rest => show_first_image rest has_shown_image
  end.

(** The body of the [for msg in self.conversation_history] loop: the
    pairs one message adds to [display_history], or the exception it
    raises. *)
Definition display_message (msg : Message) : result (list DisplayPair) :=
  if String.eqb (role msg) "user" then
    match content msg with
    | CList blocks =>
        if hide_prompt msg then Ok (show_first_image blocks false)
        else
          b0 ← index blocks 0;
          text ← block_text b0;
          if bool_decide (1 < length blocks) then
            b1 ← index blocks 1;
            image_url ← block_image_url b1;
            Ok [(Some text, None); (Some (img_markup image_url), None)]
          else Ok [(Some text, None)]
    | CStr s => Ok [(Some s, None)]
    end
  else
    match content msg with
    | CList blocks =>
        b0 ← index blocks 0;
        text ← block_text b0;
        Ok [(None, Some text)]
    | CStr s => Ok [(None, Some s)]
    end.

Fixpoint get_display_history (conversation_history : list Message)
    : result (list DisplayPair) :=
  match conversation_history with
  | [] => Ok []
  | msg :: rest =>
      pairs ← display_message msg;
      display_history ← get_display_history rest;
      Ok (pairs ++ display_history)
  end.

(** Number of stored turns whose content is a list of more than one
    block. *)
Definition multi_count (h : list Message) : nat :=
  length (filter (λ msg, multi_block msg = true) h).

(** The arguments of one [add_message] call. *)
Record Append : Type := mkAppend {
  a_role : string;
  a_content : Content;
  a_has_image : bool;
  a_hide_prompt : bool
}.

Definition append (h : list Message) (a : Append) : list Message :=
  add_message h (a_role a) (a_content a) (a_has_image a) (a_hide_prompt a).

Definition appends (h : list Message) (ops : list Append) : list Message :=
  foldl append h ops.

Definition prune (h : list Message) : list Message :=
  filter (λ msg, multi_block msg = false) h.

End ChatMemory.

(** ** ChatInterface *)

(** One entry of [api_messages]: [{"role": r, "content": c}], where [c] is
    a stored block list or a plain string. *)
Record ApiMessage : Type := mkApiMessage {
  api_role : string;
  api_content : Content
}.

(** What the [OpenAI(...)] constructor was given. *)
Record Client : Type := mkClient {
  base_url : string;
  api_key : string
}.

(** What one call of [process_message] gets from outside the program.
    - [read_base64 path]: lines 153-154, the file read and encoded;
    - [describe_image path]: the body of the [try] of
      [get_image_description] (lines 108-129), the remote description;
    - [create_completion model messages extra_body]: lines 190-207
      followed by the reading of the reply; [Ok None] is a completion that
      is falsy or has no choices, [Ok (Some text)] one whose first choice
      carries [text].  The reply text is taken to be a string: a first
      choice whose content is null is outside this model. *)
Record Collaborators : Type := mkCollaborators {
  read_base64 : string → result string;
  describe_image : string → result string;
  create_completion : string → list ApiMessage → bool → result (option string)
}.

Record ChatInterface : Type := mkChatInterface {
  memory : list Message;
  client : option Client
}.

Module ChatInterface.
Import ChatMemory.

Definition init : ChatInterface := mkChatInterface [] None.

Definition vision_models : gmap string bool :=
  list_to_map [
    ("google/gemini-2.0-flash-001", true);
    ("openai/o1", true);
    ("openai/o3-mini-high", true);
    ("deepseek/deepseek-r1", false);
    ("deepseek/deepseek-r1-distill-llama-70b", false);
    ("anthropic/claude-3.7-sonnet", true);
    ("openai/gpt-4o-mini", false);
    ("openai/gpt-4o-2024-11-20", true);
    ("qwen/qvq-72b-preview", true);
    ("mistralai/pixtral-large-2411", true);
    ("x-ai/grok-2-vision-1212", true)
  ].

(** [made] is the outcome of the [OpenAI(...)] constructor. *)
Definition initialize_client (self : ChatInterface) (made : result Client)
    : ChatInterface * string :=
  match made with
  | Ok c => (mkChatInterface (memory self) (Some c), "API configured successfully!")
  | Raise e => (self, "Error configuring API: " +:+ str e)
  end.

Definition get_image_description (E : Collaborators) (image_path : string) : string :=
  match describe_image E image_path with
  | Ok description => description
  | Raise e => "Error getting image description: " +:+ str e
  end.

(** Lines 179-187: the API form of one stored message. *)
Definition api_message (msg : Message) : result ApiMessage :=
  match content msg with
  | CList blocks =>
      if has_image msg then Ok (mkApiMessage (role msg) (CList blocks))
      else
        b0 ← index blocks 0;
        text ← block_text b0;
        Ok (mkApiMessage (role msg) (CStr text))
  | CStr s => Ok (mkApiMessage (role msg) (CStr s))
  end.

(** Lines 177-187. *)
Fixpoint build_api_messages (conversation_history : list Message)
    : result (list ApiMessage) :=
  match conversation_history with
  | [] => Ok []
  | msg :: rest =>
      api_msg ← api_message msg;
      api_messages ← build_api_messages rest;
      Ok (api_msg :: api_messages)
  end.

(** Lines 152-166, the body of the [try] around the image. *)
Definition attach_image (E : Collaborators) (user_input image actual_model : string)
    (message_content : list ContentBlock) : result (list ContentBlock) :=
  let is_vision_model := default false (vision_models !! actual_model) in
  img_data ← read_base64 E image;
  if negb is_vision_model then
    let image_description := get_image_description E image in
    Ok [TextBlock (user_input +:+ newline +:+ "[Image Description: "
                   +:+ image_description +:+ "]")]
  else
    Ok (message_content ++ [ImageBlock ("data:image/png;base64," +:+ img_data)]).

(** Lines 177-216, the body of the inner [try]: the memory as the body
    leaves it, and what the body returns or raises. *)
Definition call_api (E : Collaborators) (actual_model : string)
    (memory : list Message) : list Message * result (list DisplayPair * string) :=
  match
    api_messages ← build_api_messages (get_history memory);
    create_completion E actual_model api_messages (String.prefix "openai/" actual_model)
  with
  | Raise e => (memory, Raise e)
  | Ok (Some assistant_message) =>
      let memory :=
        add_message memory "assistant" (CList [TextBlock assistant_message]) false false in
      (memory, display ← get_display_history memory; Ok (display, ""))
  | Ok None =>
      let error_msg := "No response from API" in
      let memory :=
        add_message memory "assistant" (CList [TextBlock error_msg]) false false in
      (memory, display ← get_display_history memory; Ok (display, error_msg))
  end.

(** Lines 176-221, the inner [try] with its handler. *)
Definition call_api_handled (E : Collaborators) (actual_model : string)
    (memory : list Message) : list Message * result (list DisplayPair * string) :=
  match call_api E actual_model memory with
  | (memory, Ok r) => (memory, Ok r)
  | (memory, Raise e) =>
      let error_msg := "Error in API call: " +:+ str e in
      let memory :=
        add_message memory "assistant" (CList [TextBlock error_msg]) false false in
      (memory, display ← get_display_history memory; Ok (display, error_msg))
  end.

(** Lines 144-166: the content of the user turn, or the exception of
    the image [try]. *)
Definition user_content (E : Collaborators) (user_input : string)
    (image : option string) (multimodal_enabled : bool) (actual_model : string)
    : result (list ContentBlock) :=
  let message_content :=
    if String.eqb user_input "" then [] else [TextBlock user_input] in
  match image with
  | Some path =>
      if multimodal_enabled
      then attach_image E user_input path actual_model message_content
      else Ok message_content
  | None => Ok message_content
  end.

(** The first component of the returned pair is [None], the [history]
    argument handed back, or the display history. *)
Definition process_message (E : Collaborators) (self : ChatInterface)
    (user_input : string) (image : option string) (multimodal_enabled : bool)
    (history : list DisplayPair) (model_name custom_model : string)
    : ChatInterface * (option (list DisplayPair) * string) :=
  match client self with
  | None => (self, (None, "Please configure API settings first."))
  | Some _ =>
      let actual_model :=
        if String.eqb model_name "custom" then custom_model else model_name in
      match user_content E user_input image multimodal_enabled actual_model with
      | Raise e => (self, (Some history, "Error processing image: " +:+ str e))
      | Ok message_content =>
          let memory :=
            add_message (memory self) "user" (CList message_content)
              (multimodal_enabled && bool_decide (image ≠ None)) false in
          match call_api_handled E actual_model memory with
          | (memory, Ok (display, error_msg)) =>
              (mkChatInterface memory (client self), (Some display, error_msg))
          | (memory, Raise e) =>
              (mkChatInterface memory (client self), (Some history, "Error: " +:+ str e))
          end
      end
  end.

(** The [api_messages] that a call hands to the completion service,
    when it gets that far: lines 144-187 without the call itself. *)
Definition api_payload (E : Collaborators) (self : ChatInterface)
    (user_input : string) (image : option string) (multimodal_enabled : bool)
    (model_name custom_model : string) : option (list ApiMessage) :=
  match client self with
  | None => None
  | Some _ =>
      let actual_model :=
        if String.eqb model_name "custom" then custom_model else model_name in
      match user_content E user_input image multimodal_enabled actual_model with
      | Raise _ => None
      | Ok message_content =>
          match build_api_messages
                  (add_message (memory self) "user" (CList message_content)
                     (multimodal_enabled && bool_decide (image ≠ None)) false)
          with
          | Ok api_messages => Some api_messages
          | Raise _ => None
          end
      end
  end.

(** One click on Send: the arguments and what the outside world does
    during the call. *)
Record Submit : Type := mkSubmit {
  env : Collaborators;
  user_input : string;
  image : option string;
  multimodal_enabled : bool;
  history : list DisplayPair;
  model_name : string;
  custom_model : string
}.

Definition submit (self : ChatInterface) (c : Submit) : ChatInterface :=
  fst (process_message (env c) self (user_input c) (image c)
         (multimodal_enabled c) (history c) (model_name c) (custom_model c)).

Definition run (self : ChatInterface) (calls : list Submit) : ChatInterface :=
  foldl submit self calls.

(** Number of image blocks in a content, and in a whole payload. *)
Definition is_image (b : ContentBlock) : bool :=
  match b with
  | ImageBlock _ => true
  | TextBlock _ => false
  end.

Definition image_blocks (c : Content) : nat :=
  match c with
  | CList blocks => length (filter (λ b, is_image b = true) blocks)
  | CStr _ => 0
  end.

Definition payload_images (api_messages : list ApiMessage) : nat :=
  sum_list_with (image_blocks ∘ api_content) api_messages.

Definition stored_images (h : list Message) : nat :=
  sum_list_with (image_blocks ∘ content) h.

(** What step 5 promises of the API form [m] of a stored turn [msg]. *)
Definition flattens (msg : Message) (m : ApiMessage) : Prop :=
  api_role m = role msg ∧
  match content msg with
  | CStr s => api_content m = CStr s
  | CList blocks =>
      if has_image msg then api_content m = CList blocks
      else ∃ text rest, blocks = TextBlock text :: rest ∧ api_content m = CStr text
  end.

(** [E] with a description service that answers [description]. *)
Definition with_description (E : Collaborators) (description : string) : Collaborators :=
  mkCollaborators (read_base64 E) (λ _, Ok description) (create_completion E).

(** A text-only assistant turn, as lines 211, 215 and 220 append it. *)
Definition assistant_text (msg : Message) : Prop :=
  ∃ text, msg = mkMessage "assistant" (CList [TextBlock text]) false false.

(** A call that attaches an image also carries some text. *)
Definition captioned (c : Submit) : Prop :=
  multimodal_enabled c = true → image c ≠ None → user_input c ≠ "".

End ChatInterface.

(** ** Collaborators and states used in the examples *)

Module Fixtures.
Import ChatMemory ChatInterface.

Definition configured (h : list Message) : ChatInterface :=
  mkChatInterface h (Some (mkClient "https://openrouter.ai/api/v1" "sk-or-v1-0000")).

(** Every file is readable, every image is described, the completion
    service answers [reply]. *)
Definition answering (reply : string) : Collaborators :=
  mkCollaborators (λ _, Ok "iVBORw0KGgo=") (λ _, Ok "a red square")
    (λ _ _ _, Ok (Some reply)).

(** As [answering], but the reply tells how many image blocks the
    completion service was sent. *)
Definition counting : Collaborators :=
  mkCollaborators (λ _, Ok "iVBORw0KGgo=") (λ _, Ok "a red square")
    (λ _ api_messages _,
       Ok (Some (if bool_decide (payload_images api_messages ≤ 1)
                 then "at most one image" else "several images"))).

(** The description service fails with [msg]. *)
Definition undescribed (msg reply : string) : Collaborators :=
  mkCollaborators (λ _, Ok "iVBORw0KGgo=") (λ _, Raise (External msg))
    (λ _ _ _, Ok (Some reply)).

(** The image file cannot be read. *)
Definition unreadable (msg reply : string) : Collaborators :=
  mkCollaborators (λ _, Raise (External msg)) (λ _, Ok "a red square")
    (λ _ _ _, Ok (Some reply)).

Definition picture : Content :=
  CList [TextBlock "What is this?"; ImageBlock "data:image/png;base64,iVBORw0KGgo="].

End Fixtures.

(** ** The API configuration button *)

Module Wiring.
Import ChatInterface.

(** Lines 288-293, the [configure_api] closure of [create_interface]:
    it calls [initialize_client], drops what that returns and answers
    with its own success text.  [initialize_client] catches every
    exception itself (lines 97-104), so the handler of line 292 is never
    entered. *)
Definition configure_api (self : ChatInterface) (made : result Client)
    : ChatInterface * string :=
  let '(self, _) := initialize_client self made in
  (self, "API configured successfully!").

End Wiring.

(** ** Further collaborators used in the examples *)

Module Scenarios.
Import ChatMemory ChatInterface.

(** The completion service raises [msg]. *)
Definition refusing (msg : string) : Collaborators :=
  mkCollaborators (λ _, Ok "iVBORw0KGgo=") (λ _, Ok "a red square")
    (λ _ _ _, Raise (External msg)).

(** The completion service returns no choices. *)
Definition silent : Collaborators :=
  mkCollaborators (λ _, Ok "iVBORw0KGgo=") (λ _, Ok "a red square")
    (λ _ _ _, Ok None).

Definition hello : Message := mkMessage "user" (CList [TextBlock "Hello"]) false false.

Definition hi_there : Message :=
  mkMessage "assistant" (CList [TextBlock "Hi there"]) false false.

(** A user turn that shows its image only. *)
Definition hidden_prompt : Message :=
  mkMessage "user"
    (CList [TextBlock "What is this?";
            ImageBlock "data:image/png;base64,iVBORw0KGgo=";
            ImageBlock "data:image/png;base64,AAAA"]) true true.

(** A user turn that is a lone image block, as a call with an image and
    no text stores it. *)
Definition lone_image : Message :=
  mkMessage "user" (CList [ImageBlock "data:image/png;base64,iVBORw0KGgo="]) true false.

(** A user turn with an empty block list, as a call with no text and no
    image stores it. *)
Definition empty_turn : Message := mkMessage "user" (CList []) false false.

(** The turns that calls leave in the store between them: a text-only
    assistant turn, or a user turn with [hide_prompt] unset whose content
    is a list of at most one block. *)
Definition left_by_calls (msg : Message) : Prop :=
  assistant_text msg
  ∨ (role msg = "user" ∧ hide_prompt msg = false
     ∧ ∃ blocks, content msg = CList blocks ∧ length blocks ≤ 1).

End Scenarios.

(** * Properties of the conversation store *)

Module ChatMemoryFacts.
Import ChatMemory.

Lemma prune_app h1 h2 : prune (h1 ++ h2) = prune h1 ++ prune h2.
Proof. apply filter_app. Qed.

Lemma prune_Forall h : Forall (λ msg, multi_block msg = false) (prune h).
Proof. apply Forall_forall. intros msg Hin. by apply list_elem_of_filter in Hin as [? _]. Qed.

Lemma prune_id h : Forall (λ msg, multi_block msg = false) h → prune h = h.
Proof.
  induction 1 as [|msg h Hm _ IH]; [done|].
  unfold prune in *. rewrite filter_cons_True by done. by rewrite IH.
Qed.

Lemma prune_idemp h : prune (prune h) = prune h.
Proof. apply prune_id, prune_Forall. Qed.

Lemma multi_count_app h1 h2 : multi_count (h1 ++ h2) = multi_count h1 + multi_count h2.
Proof. unfold multi_count. by rewrite filter_app, length_app. Qed.

Lemma multi_count_single msg :
  multi_count [msg] = if multi_block msg then 1 else 0.
Proof.
  unfold multi_count. destruct (multi_block msg) eqn:Hm.
  - by rewrite filter_cons_True.
  - rewrite filter_cons_False; [done|]. by rewrite Hm.
Qed.

Lemma multi_count_zero h :
  Forall (λ msg, multi_block msg = false) h → multi_count h = 0.
Proof.
  induction 1 as [|msg h Hm _ IH]; [done|].
  unfold multi_count in *. rewrite filter_cons_False; [done|]. by rewrite Hm.
Qed.

Lemma multi_count_prune h : multi_count (prune h) = 0.
Proof. apply multi_count_zero, prune_Forall. Qed.

Lemma add_message_false h r c hp :
  add_message h r c false hp = prune h ++ [mkMessage r c false hp].
Proof. reflexivity. Qed.

Lemma add_message_true h r c hp :
  add_message h r c true hp = h ++ [mkMessage r c true hp].
Proof. reflexivity. Qed.

(** A text-only assistant turn is not multi-block, and adding one
    leaves no multi-block turn behind. *)
Lemma add_assistant_Forall h text :
  Forall (λ msg, multi_block msg = false)
    (add_message h "assistant" (CList [TextBlock text]) false false).
Proof.
  rewrite add_message_false. apply Forall_app. split; [apply prune_Forall|].
  by apply Forall_singleton.
Qed.

Lemma get_display_history_app h1 h2 :
  get_display_history (h1 ++ h2) =
  (d1 ← get_display_history h1; d2 ← get_display_history h2; Ok (d1 ++ d2)).
Proof.
  induction h1 as [|msg h1 IH]; simpl.
  - by destruct (get_display_history h2).
  - destruct (display_message msg) as [pairs|e]; simpl; [|done].
    rewrite IH. destruct (get_display_history h1) as [d1|e]; simpl; [|done].
    destruct (get_display_history h2) as [d2|e]; simpl; [|done].
    by rewrite (assoc_L (++)).
Qed.

End ChatMemoryFacts.


(** ** The prune rule *)

Module PruneRule.
Import ChatMemory ChatMemoryFacts Fixtures.

(** C1, as stated, fails: two appends with [has_image=True] of a
    two-block turn leave two multi-block turns in the store, since only
    an append with [has_image=False] prunes. *)
Lemma two_image_appends_keep_two_multi_block :
  ¬ (multi_count
       (appends [] [mkAppend "user" picture true false;
                    mkAppend "user" picture true false]) ≤ 1).
Proof. vm_compute. lia. Qed.

(** C1 (amended): after any sequence of appends, an append with
    [has_image=False] yields the store without its multi-block turns
    followed by the new turn; then only the last turn can be multi-block
    and at most one multi-block turn is stored.  An append with
    [has_image=True] removes nothing: the new turn is added to the store
    as it was, and the number of multi-block turns grows by one when the
    new turn is multi-block. *)
Theorem append_prunes_unless_image (h0 : list Message) (ops : list Append) (a : Append) :
  let h := appends h0 ops in
  let new := mkMessage (a_role a) (a_content a) (a_has_image a) (a_hide_prompt a) in
  (a_has_image a = false →
     append h a = filter (λ msg, multi_block msg = false) h ++ [new]
     ∧ (∀ i msg, append h a !! i = Some msg → multi_block msg = true →
          S i = length (append h a) ∧ msg = new)
     ∧ multi_count (append h a) ≤ 1)
  ∧ (a_has_image a = true →
     append h a = h ++ [new]
     ∧ multi_count (append h a) = multi_count h + (if multi_block new then 1 else 0)).
Proof.
  intros h new. subst new. destruct a as [r c hi hp]. unfold append. simpl. split.
  - intros ->. rewrite add_message_false. split; [done|]. split.
    + intros i msg Hi Hm.
      assert (Hlen : i < length (prune h ++ [mkMessage r c false hp]))
        by (by eapply lookup_lt_Some).
      rewrite length_app in Hlen |- *. simpl in *.
      destruct (decide (i < length (prune h))) as [Hlt|Hge].
      * rewrite lookup_app_l in Hi by done.
        pose proof (prune_Forall h) as HF.
        rewrite Forall_lookup in HF. specialize (HF _ _ Hi). simpl in HF. congruence.
      * assert (i = length (prune h)) as -> by lia.
        rewrite list_lookup_middle in Hi by done. split; [lia|congruence].
    + rewrite multi_count_app, multi_count_prune, multi_count_single.
      destruct (multi_block _); lia.
  - intros ->. rewrite add_message_true. split; [done|].
    by rewrite multi_count_app, multi_count_single.
Qed.

Lemma append_prunes_unless_image_witness :
  let h := appends [] [mkAppend "user" picture true false] in
  append h (mkAppend "user" (CStr "And now?") false false)
  = [mkMessage "user" (CStr "And now?") false false]
  ∧ multi_count (append h (mkAppend "user" picture true false)) = 2.
Proof.
  intros h. subst h. split.
  - destruct (append_prunes_unless_image [] [mkAppend "user" picture true false]
                (mkAppend "user" (CStr "And now?") false false)) as [H _].
    destruct (H eq_refl) as [-> _]. reflexivity.
  - destruct (append_prunes_unless_image [] [mkAppend "user" picture true false]
                (mkAppend "user" picture true false)) as [_ H].
    destruct (H eq_refl) as [_ ->]. reflexivity.
Defined.

End PruneRule.


(** ** Rendering and flattening of stored turns *)

Module Projection.
Import ChatMemory ChatMemoryFacts ChatInterface Fixtures.

Lemma api_message_Ok msg m : api_message msg = Ok m → flattens msg m.
Proof.
  unfold api_message, flattens. destruct msg as [r c hi hp]; simpl.
  destruct c as [s|blocks].
  - by intros [= <-].
  - destruct hi; [by intros [= <-]|].
    destruct blocks as [|[text|url] rest]; simpl; try done.
    intros [= <-]. eauto.
Qed.

Lemma build_api_messages_Forall2 h api_messages :
  build_api_messages h = Ok api_messages → Forall2 flattens h api_messages.
Proof.
  revert api_messages. induction h as [|msg h IH]; simpl; intros api_messages.
  - intros [= <-]. constructor.
  - destruct (api_message msg) as [m|e] eqn:Hm; simpl; [|done].
    destruct (build_api_messages h) as [ms|e]; simpl; [|done].
    intros [= <-]. constructor; [by apply api_message_Ok|by apply IH].
Qed.

Lemma build_api_messages_built h api_messages :
  Forall2 (λ msg m, api_message msg = Ok m) h api_messages →
  build_api_messages h = Ok api_messages.
Proof.
  induction 1 as [|msg m h ms Hm _ IH]; simpl; [done|].
  by rewrite Hm, IH.
Qed.

Lemma build_api_messages_total h :
  Forall (λ msg, ∃ m, api_message msg = Ok m) h →
  ∃ api_messages, Forall2 (λ msg m, api_message msg = Ok m) h api_messages.
Proof.
  induction 1 as [|msg h [m Hm] _ [ms IH]]; [by exists []|].
  exists (m :: ms). by constructor.
Qed.

(** C7: the API message built from a stored turn has the turn's role;
    its content is the stored block list when [has_image] is set, the text
    of the first block when the content is a block list and [has_image] is
    not set, and the string itself when the content is a string.  A
    message is built in each of these cases, and every message of
    [api_messages] is built from the stored turn at its position.  Step 5
    does build them: on a store whose turns each flatten, the loop
    returns one message per turn, in order, each the flattened form of
    its turn. *)
Theorem api_message_flatten (msg : Message) :
  (∀ s, content msg = CStr s →
     api_message msg = Ok (mkApiMessage (role msg) (CStr s)))
  ∧ (∀ blocks, content msg = CList blocks → has_image msg = true →
     api_message msg = Ok (mkApiMessage (role msg) (CList blocks)))
  ∧ (∀ text rest, content msg = CList (TextBlock text :: rest) → has_image msg = false →
     api_message msg = Ok (mkApiMessage (role msg) (CStr text)))
  ∧ (∀ m, api_message msg = Ok m → flattens msg m)
  ∧ (∀ before after api_messages,
       build_api_messages (before ++ msg :: after) = Ok api_messages →
       ∃ m, api_messages !! length before = Some m ∧ flattens msg m)
  ∧ (∀ h api_messages,
       Forall2 (λ turn m, api_message turn = Ok m) h api_messages →
       build_api_messages h = Ok api_messages)
  ∧ (∀ before after,
       Forall (λ turn, ∃ m, api_message turn = Ok m) (before ++ msg :: after) →
       ∃ api_messages m,
         build_api_messages (before ++ msg :: after) = Ok api_messages
         ∧ length api_messages = length (before ++ msg :: after)
         ∧ api_messages !! length before = Some m
         ∧ api_message msg = Ok m
         ∧ flattens msg m).
Proof.
  split; [|split; [|split; [|split; [|split; [|split]]]]].
  - unfold api_message. by intros s ->.
  - unfold api_message. by intros blocks -> ->.
  - unfold api_message. by intros text rest -> ->.
  - apply api_message_Ok.
  - intros before after api_messages H%build_api_messages_Forall2.
    apply Forall2_app_inv_l in H as (ms1 & ms2 & H1 & H2 & ->).
    apply Forall2_cons_inv_l in H2 as (m & ms3 & Hm & _ & ->).
    exists m. split; [|done].
    rewrite (Forall2_length _ _ _ H1). by apply list_lookup_middle.
  - apply build_api_messages_built.
  - intros before after [api_messages H]%build_api_messages_total.
    pose proof (build_api_messages_built _ _ H) as Hb.
    pose proof (Forall2_length _ _ _ H) as Hlen.
    apply Forall2_app_inv_l in H as (ms1 & ms2 & H1 & H2 & ->).
    apply Forall2_cons_inv_l in H2 as (m & ms3 & Hm & _ & ->).
    exists (ms1 ++ m :: ms3), m. split; [done|]. split; [done|].
    split; [|split; [done|by apply api_message_Ok]].
    rewrite (Forall2_length _ _ _ H1). by apply list_lookup_middle.
Qed.

Lemma api_message_flatten_witness :
  api_message (mkMessage "assistant" (CList [TextBlock "Hi there"]) false false)
  = Ok (mkApiMessage "assistant" (CStr "Hi there"))
  ∧ api_message (mkMessage "user" picture true false)
  = Ok (mkApiMessage "user" picture)
  ∧ api_message (mkMessage "user" (CStr "Hello") false false)
  = Ok (mkApiMessage "user" (CStr "Hello"))
  ∧ build_api_messages
      [mkMessage "user" (CStr "Hello") false false;
       mkMessage "assistant" (CList [TextBlock "Hi there"]) false false;
       mkMessage "user" picture true false]
    = Ok [mkApiMessage "user" (CStr "Hello");
          mkApiMessage "assistant" (CStr "Hi there");
          mkApiMessage "user" picture].
Proof.
  split; [|split; [|split]].
  - destruct (api_message_flatten
                (mkMessage "assistant" (CList [TextBlock "Hi there"]) false false))
      as (_ & _ & H & _).
    exact (H "Hi there" [] eq_refl eq_refl).
  - destruct (api_message_flatten (mkMessage "user" picture true false))
      as (_ & H & _).
    exact (H _ eq_refl eq_refl).
  - destruct (api_message_flatten (mkMessage "user" (CStr "Hello") false false))
      as (H & _).
    exact (H "Hello" eq_refl).
  - destruct (api_message_flatten (mkMessage "user" picture true false))
      as (_ & _ & _ & _ & _ & H & _).
    apply H. repeat constructor.
Defined.

(** C8, as stated, fails: a user turn whose second block is a text block
    makes the rendering raise [KeyError: 'image_url'], so the text pair is
    not produced either. *)
Lemma display_two_text_blocks_raises :
  get_display_history
    [mkMessage "user" (CList [TextBlock "first"; TextBlock "second"]) false false]
  = Raise (KeyError "image_url")
  ∧ get_display_history
      [mkMessage "user" (CList [TextBlock "first"; TextBlock "second"]) false false]
    ≠ Ok [(Some "first", None)].
Proof. split; [reflexivity|discriminate]. Qed.

(** C8 (amended): for a user turn with [hide_prompt] unset whose content
    is a block list that starts with a text block, the rendering emits the
    pair [(text, None)] alone when there is no second block, and that pair
    immediately followed by the image pair when the second block is an
    image block; when the second block is not an image block the
    rendering raises [KeyError: 'image_url'] and emits nothing. *)
Theorem display_user_text_first (before after : list Message) (msg : Message)
    (text : string) (rest : list ContentBlock) (shown_before shown_after : list DisplayPair) :
  role msg = "user" →
  content msg = CList (TextBlock text :: rest) →
  hide_prompt msg = false →
  get_display_history before = Ok shown_before →
  get_display_history after = Ok shown_after →
  get_display_history (before ++ msg :: after) =
  match rest with
  | [] => Ok (shown_before ++ (Some text, None) :: shown_after)
  | ImageBlock image_url :: _ =>
      Ok (shown_before
          ++ (Some text, None) :: (Some (img_markup image_url), None) :: shown_after)
  | TextBlock _ :: _ => Raise (KeyError "image_url")
  end.
Proof.
  intros Hr Hc Hh Hb Ha. rewrite get_display_history_app, Hb. simpl.
  unfold display_message. rewrite Hr, Hc, Hh. simpl.
  destruct rest as [|[t2|url] rest]; simpl; try done; by rewrite Ha.
Qed.

Lemma display_user_text_first_witness :
  get_display_history
    [mkMessage "user" (CStr "Hello") false false;
     mkMessage "user" picture true false;
     mkMessage "assistant" (CList [TextBlock "A red square."]) false false]
  = Ok [(Some "Hello", None);
        (Some "What is this?", None);
        (Some "<img src='data:image/png;base64,iVBORw0KGgo=' width='400'>", None);
        (None, Some "A red square.")].
Proof.
  exact (display_user_text_first
           [mkMessage "user" (CStr "Hello") false false]
           [mkMessage "assistant" (CList [TextBlock "A red square."]) false false]
           (mkMessage "user" picture true false)
           "What is this?" [ImageBlock "data:image/png;base64,iVBORw0KGgo="]
           [(Some "Hello", None)] [(None, Some "A red square.")]
           eq_refl eq_refl eq_refl eq_refl eq_refl).
Defined.

End Projection.


(** ** What one call of [process_message] does to the store *)

Module Routing.
Import ChatMemory ChatMemoryFacts ChatInterface Fixtures.

Lemma assistant_text_single msg : assistant_text msg → multi_block msg = false.
Proof. by intros [text ->]. Qed.

Lemma prune_add_assistant h text :
  prune (add_message h "assistant" (CList [TextBlock text]) false false)
  = add_message h "assistant" (CList [TextBlock text]) false false.
Proof. apply prune_id, add_assistant_Forall. Qed.

(** The inner [try] with its handler appends one or two assistant turns
    to the pruned store, whatever the collaborators do. *)
Lemma call_api_handled_memory E actual_model h :
  ∃ tail, fst (call_api_handled E actual_model h) = prune h ++ tail
          ∧ tail ≠ [] ∧ Forall assistant_text tail.
Proof.
  unfold call_api_handled, call_api.
  destruct (build_api_messages (get_history h)) as [api_messages|e]; simpl.
  2:{ eexists [_]. rewrite add_message_false. split; [done|].
      split; [done|]. apply Forall_singleton. by eexists. }
  destruct (create_completion E actual_model api_messages _) as [[reply|]|e]; simpl.
  3:{ eexists [_]. rewrite add_message_false. split; [done|].
      split; [done|]. apply Forall_singleton. by eexists. }
  - destruct (get_display_history _) as [display|e]; simpl.
    + eexists [_]. rewrite add_message_false. split; [done|].
      split; [done|]. apply Forall_singleton. by eexists.
    + eexists [_; _]. rewrite (add_message_false (add_message _ _ _ _ _)).
      rewrite prune_add_assistant, add_message_false, <-(assoc_L (++)).
      split; [done|]. split; [done|].
      repeat constructor; by eexists.
  - destruct (get_display_history _) as [display|e]; simpl.
    + eexists [_]. rewrite add_message_false. split; [done|].
      split; [done|]. apply Forall_singleton. by eexists.
    + eexists [_; _]. rewrite (add_message_false (add_message _ _ _ _ _)).
      rewrite prune_add_assistant, add_message_false, <-(assoc_L (++)).
      split; [done|]. split; [done|].
      repeat constructor; by eexists.
Qed.

Lemma prune_add_message h r c hi hp :
  prune (add_message h r c hi hp) = prune (h ++ [mkMessage r c hi hp]).
Proof.
  destruct hi; [done|].
  by rewrite add_message_false, !prune_app, prune_idemp.
Qed.

(** The store after a call that got past the client check and the image
    [try]. *)
Lemma process_message_memory E self user_input image multimodal_enabled history
    model_name custom_model c message_content :
  client self = Some c →
  user_content E user_input image multimodal_enabled
    (if String.eqb model_name "custom" then custom_model else model_name)
  = Ok message_content →
  memory (fst (process_message E self user_input image multimodal_enabled history
                 model_name custom_model))
  = fst (call_api_handled E
           (if String.eqb model_name "custom" then custom_model else model_name)
           (add_message (memory self) "user" (CList message_content)
              (multimodal_enabled && bool_decide (image ≠ None)) false)).
Proof.
  intros Hc Hu. unfold process_message. rewrite Hc, Hu.
  destruct (call_api_handled _ _ _) as [h [[display error_msg]|e]]; done.
Qed.

(** The completion service is asked once at most, and what it is sent is
    [api_payload]: two worlds that read and describe alike and whose
    completion services answer that one request alike give the same
    call. *)
Lemma process_message_sends_payload E E' self user_input image multimodal_enabled
    history model_name custom_model :
  read_base64 E = read_base64 E' →
  describe_image E = describe_image E' →
  (∀ api_messages,
     api_payload E self user_input image multimodal_enabled model_name custom_model
     = Some api_messages →
     let actual_model :=
       if String.eqb model_name "custom" then custom_model else model_name in
     create_completion E actual_model api_messages (String.prefix "openai/" actual_model)
     = create_completion E' actual_model api_messages
         (String.prefix "openai/" actual_model)) →
  process_message E self user_input image multimodal_enabled history
    model_name custom_model
  = process_message E' self user_input image multimodal_enabled history
      model_name custom_model.
Proof.
  intros Hr Hd Hc.
  unfold process_message, api_payload, call_api_handled, call_api in *.
  assert (Hu : ∀ m, user_content E user_input image multimodal_enabled m
                    = user_content E' user_input image multimodal_enabled m).
  { intros m. unfold user_content, attach_image, get_image_description.
    by rewrite Hr, Hd. }
  destruct (client self); [|done]. rewrite <-Hu.
  destruct (user_content E _ _ _ _) as [message_content|e]; [|done].
  unfold get_history.
  destruct (build_api_messages _) as [api_messages|e]; simpl; [|done].
  by rewrite (Hc _ eq_refl).
Qed.

(** C9: without a configured client the call returns the configuration
    error and the store is the one it was given. *)
Theorem process_message_not_configured (E : Collaborators) (self : ChatInterface)
    (user_input : string) (image : option string) (multimodal_enabled : bool)
    (history : list DisplayPair) (model_name custom_model : string) :
  client self = None →
  process_message E self user_input image multimodal_enabled history
    model_name custom_model
  = (self, (None, "Please configure API settings first.")).
Proof. intros H. unfold process_message. by rewrite H. Qed.

Lemma process_message_not_configured_witness :
  process_message (answering "Hi there")
    (mkChatInterface [mkMessage "user" picture true false] None)
    "Hello" (Some "cat.png") true [] "openai/o1" ""
  = (mkChatInterface [mkMessage "user" picture true false] None,
     (None, "Please configure API settings first.")).
Proof.
  exact (process_message_not_configured (answering "Hi there")
           (mkChatInterface [mkMessage "user" picture true false] None)
           "Hello" (Some "cat.png") true [] "openai/o1" "" eq_refl).
Defined.

(** C6: when an image is attached and reading or encoding the file
    raises, the call returns a non-empty error text and the interface,
    hence the store, is left as it was; with a configured client the
    result is the [history] argument and "Error processing image: ...". *)
Theorem process_message_image_unreadable (E : Collaborators) (self : ChatInterface)
    (user_input path : string) (history : list DisplayPair)
    (model_name custom_model : string) (e : Exn) :
  read_base64 E path = Raise e →
  let r := process_message E self user_input (Some path) true history
             model_name custom_model in
  fst r = self
  ∧ snd (snd r) ≠ ""
  ∧ (client self ≠ None →
     r = (self, (Some history, "Error processing image: " +:+ str e))).
Proof.
  intros Hread. unfold process_message, user_content, attach_image.
  rewrite Hread. destruct (client self); simpl; [|done].
  split; [done|]. split; [|done].
  by destruct (str e).
Qed.

Lemma process_message_image_unreadable_witness :
  process_message (unreadable "[Errno 2] No such file or directory: 'cat.png'" "Hi")
    (configured [mkMessage "user" (CStr "Hello") false false])
    "What is this?" (Some "cat.png") true [(Some "Hello", None)] "openai/o1" ""
  = (configured [mkMessage "user" (CStr "Hello") false false],
     (Some [(Some "Hello", None)],
      "Error processing image: [Errno 2] No such file or directory: 'cat.png'")).
Proof.
  destruct (process_message_image_unreadable
              (unreadable "[Errno 2] No such file or directory: 'cat.png'" "Hi")
              (configured [mkMessage "user" (CStr "Hello") false false])
              "What is this?" "cat.png" [(Some "Hello", None)] "openai/o1" ""
              (External "[Errno 2] No such file or directory: 'cat.png'") eq_refl)
    as (_ & _ & H).
  rewrite H; [reflexivity|discriminate].
Defined.

(** The store after a call that got past the client check and the image
    [try], in terms of the store before it. *)
Lemma process_message_store_shape E self user_input image
    multimodal_enabled history model_name custom_model c message_content :
  client self = Some c →
  user_content E user_input image multimodal_enabled
    (if String.eqb model_name "custom" then custom_model else model_name)
  = Ok message_content →
  ∃ tail,
    memory (fst (process_message E self user_input image multimodal_enabled
                   history model_name custom_model))
    = prune (memory self
             ++ [mkMessage "user" (CList message_content)
                   (multimodal_enabled && bool_decide (image ≠ None)) false])
      ++ tail
    ∧ tail ≠ [] ∧ Forall assistant_text tail.
Proof.
  intros Hc Hu.
  rewrite (process_message_memory _ _ _ _ _ _ _ _ _ _ Hc Hu).
  destruct (call_api_handled_memory E
              (if String.eqb model_name "custom" then custom_model else model_name)
              (add_message (memory self) "user" (CList message_content)
                 (multimodal_enabled && bool_decide (image ≠ None)) false))
    as (tail & -> & Hne & Htail).
  rewrite prune_add_message. by exists tail.
Qed.

(** C10: a call that gets past the client check and the image [try]
    ends by appending one or two assistant turns, each a single text
    block with [has_image] unset; they follow the pruned earlier store and
    user turn, so no multi-block turn is left when the call returns, and a
    multi-block user turn appended by the call is gone again. *)
Theorem process_message_leaves_no_multi_block (E : Collaborators) (self : ChatInterface)
    (user_input : string) (image : option string) (multimodal_enabled : bool)
    (history : list DisplayPair) (model_name custom_model : string)
    (c : Client) (message_content : list ContentBlock) :
  client self = Some c →
  user_content E user_input image multimodal_enabled
    (if String.eqb model_name "custom" then custom_model else model_name)
  = Ok message_content →
  let user_turn := mkMessage "user" (CList message_content)
                     (multimodal_enabled && bool_decide (image ≠ None)) false in
  let after := memory (fst (process_message E self user_input image multimodal_enabled
                              history model_name custom_model)) in
  (∃ tail, after = prune (memory self ++ [user_turn]) ++ tail
           ∧ tail ≠ [] ∧ Forall assistant_text tail)
  ∧ Forall (λ msg, multi_block msg = false) after
  ∧ multi_count after = 0
  ∧ (multi_block user_turn = true → user_turn ∉ after).
Proof.
  intros Hc Hu user_turn after. subst after.
  destruct (process_message_store_shape E self user_input image multimodal_enabled
              history model_name custom_model c message_content Hc Hu)
    as (tail & -> & Hne & Htail).
  fold user_turn.
  assert (HF : Forall (λ msg, multi_block msg = false)
                 (prune (memory self ++ [user_turn]) ++ tail)).
  { apply Forall_app. split; [apply prune_Forall|].
    eapply Forall_impl; [exact Htail|]. apply assistant_text_single. }
  split; [by exists tail|]. split; [done|]. split; [by apply multi_count_zero|].
  intros Hm Hin. rewrite Forall_forall in HF. specialize (HF _ Hin). congruence.
Qed.

Lemma process_message_leaves_no_multi_block_witness :
  multi_count
    (memory (fst (process_message (answering "A red square.") (configured [])
                    "What is this?" (Some "cat.png") true [] "openai/o1" "")))
  = 0.
Proof.
  destruct (process_message_leaves_no_multi_block (answering "A red square.")
              (configured []) "What is this?" (Some "cat.png") true [] "openai/o1" ""
              (mkClient "https://openrouter.ai/api/v1" "sk-or-v1-0000")
              [TextBlock "What is this?"; ImageBlock "data:image/png;base64,iVBORw0KGgo="]
              eq_refl eq_refl) as (_ & _ & H & _).
  exact H.
Defined.

(** The store after a call that attaches an image for a model without
    vision support, when the file can be read. *)
Lemma non_vision_memory E self user_input path history model_name custom_model c data :
  client self = Some c →
  default false
    (vision_models !! (if String.eqb model_name "custom" then custom_model else model_name))
  = false →
  read_base64 E path = Ok data →
  ∃ tail,
    memory (fst (process_message E self user_input (Some path) true history
                   model_name custom_model))
    = prune (memory self)
      ++ mkMessage "user"
           (CList [TextBlock (user_input +:+ newline +:+ "[Image Description: "
                              +:+ get_image_description E path +:+ "]")])
           true false
         :: tail
    ∧ tail ≠ [] ∧ Forall assistant_text tail.
Proof.
  intros Hc Hv Hread.
  assert (Hu : user_content E user_input (Some path) true
                 (if String.eqb model_name "custom" then custom_model else model_name)
               = Ok [TextBlock (user_input +:+ newline +:+ "[Image Description: "
                                +:+ get_image_description E path +:+ "]")]).
  { unfold user_content, attach_image. by rewrite Hread, Hv. }
  rewrite (process_message_memory _ _ _ _ _ _ _ _ _ _ Hc Hu).
  destruct (call_api_handled_memory E
              (if String.eqb model_name "custom" then custom_model else model_name)
              (add_message (memory self) "user"
                 (CList [TextBlock (user_input +:+ newline +:+ "[Image Description: "
                                    +:+ get_image_description E path +:+ "]")])
                 (true && bool_decide (Some path ≠ None)) false))
    as (tail & -> & Hne & Htail).
  exists tail. split; [|done].
  rewrite prune_add_message, prune_app, <-(assoc_L (++)). done.
Qed.

Lemma string_app_assoc (s1 s2 s3 : string) : (s1 +:+ s2) +:+ s3 = s1 +:+ s2 +:+ s3.
Proof.
  induction s1 as [|a s1 IH]; [reflexivity|].
  change (String a ((s1 +:+ s2) +:+ s3) = String a (s1 +:+ s2 +:+ s3)).
  by rewrite IH.
Qed.

(** C3, as stated, fails: the user turn stored for a model without
    vision support has [has_image] set, as line 173 computes it from the
    arguments of the call. *)
Lemma non_vision_turn_has_image_set :
  let after :=
    memory (fst (process_message (answering "It is a square.") (configured [])
                   "What is this?" (Some "cat.png") true [] "openai/gpt-4o-mini" "")) in
  after =
    [mkMessage "user"
       (CList [TextBlock ("What is this?" +:+ newline
                          +:+ "[Image Description: a red square]")]) true false;
     mkMessage "assistant" (CList [TextBlock "It is a square."]) false false]
  ∧ ¬ (∀ msg, msg ∈ after → role msg = "user" → has_image msg = false).
Proof.
  split; [reflexivity|].
  intros H. specialize (H _ (list_elem_of_here _ _) eq_refl). discriminate H.
Qed.

(** C3 (amended): with an image attached, a readable file, a model that
    the capability table does not list as vision-capable and a
    description service that answers, the stored user turn is a single
    text block "<user text>\n[Image Description: <description>]", so its
    text contains the marker and no image block is stored; its
    [has_image] flag is set, since an image was attached. *)
Theorem non_vision_image_is_described (E : Collaborators) (self : ChatInterface)
    (user_input path : string) (history : list DisplayPair)
    (model_name custom_model : string) (c : Client) (data description : string) :
  client self = Some c →
  default false
    (vision_models !! (if String.eqb model_name "custom" then custom_model else model_name))
  = false →
  read_base64 E path = Ok data →
  describe_image E path = Ok description →
  let text := user_input +:+ newline +:+ "[Image Description: " +:+ description +:+ "]" in
  let user_turn := mkMessage "user" (CList [TextBlock text]) true false in
  (∃ tail,
     memory (fst (process_message E self user_input (Some path) true history
                    model_name custom_model))
     = prune (memory self) ++ user_turn :: tail
     ∧ tail ≠ [] ∧ Forall assistant_text tail)
  ∧ has_image user_turn = true
  ∧ image_blocks (content user_turn) = 0
  ∧ (∃ before after, text = before +:+ "[Image Description: " +:+ after).
Proof.
  intros Hc Hv Hread Hd text user_turn.
  destruct (non_vision_memory E self user_input path history model_name custom_model
              c data Hc Hv Hread) as (tail & Hmem & Htail).
  unfold get_image_description in Hmem. rewrite Hd in Hmem.
  split; [by exists tail|]. split; [done|]. split; [done|].
  exists (user_input +:+ newline), (description +:+ "]").
  subst text. by rewrite string_app_assoc.
Qed.

Lemma non_vision_image_is_described_witness :
  ∃ tail,
    memory (fst (process_message (answering "It is a square.")
                   (configured [mkMessage "user" picture true false])
                   "What is this?" (Some "cat.png") true [] "custom" "my/model"))
    = mkMessage "user"
        (CList [TextBlock ("What is this?" +:+ newline
                           +:+ "[Image Description: a red square]")]) true false
      :: tail.
Proof.
  destruct (non_vision_image_is_described (answering "It is a square.")
              (configured [mkMessage "user" picture true false])
              "What is this?" "cat.png" [] "custom" "my/model"
              (mkClient "https://openrouter.ai/api/v1" "sk-or-v1-0000")
              "iVBORw0KGgo=" "a red square" eq_refl eq_refl eq_refl eq_refl)
    as ((tail & H & _) & _).
  exists tail. exact H.
Defined.

(** C5, as stated, fails: when the description service fails and the
    completion succeeds, the failure text sits in the stored user turn,
    the assistant turn is the reply, and the returned error text is
    empty. *)
Lemma description_failure_is_embedded :
  process_message (undescribed "Connection error." "It is a square.") (configured [])
    "What is this?" (Some "cat.png") true [] "deepseek/deepseek-r1" ""
  = (configured
       [mkMessage "user"
          (CList [TextBlock ("What is this?" +:+ newline +:+ "[Image Description: "
                             +:+ "Error getting image description: Connection error.]")])
          true false;
        mkMessage "assistant" (CList [TextBlock "It is a square."]) false false],
     (Some [(Some ("What is this?" +:+ newline +:+ "[Image Description: "
                   +:+ "Error getting image description: Connection error.]"), None);
            (None, Some "It is a square.")],
      "")).
Proof. reflexivity. Qed.

Lemma build_api_messages_snoc h msg :
  build_api_messages (h ++ [msg]) =
  (api_messages ← build_api_messages h; m ← api_message msg; Ok (api_messages ++ [m])).
Proof.
  induction h as [|turn h IH]; simpl.
  - by destruct (api_message msg).
  - destruct (api_message turn) as [m0|e]; simpl; [|done].
    rewrite IH. destruct (build_api_messages h) as [ms|e]; simpl; [|done].
    by destruct (api_message msg).
Qed.

(** C5 (amended): when the description service fails with [e],
    [get_image_description] returns the text "Error getting image
    description: <e>" in place of a description, and the call goes on
    exactly as if the service had answered with that text.  For a model
    without vision support and a readable file, the text is embedded
    after the marker in the stored user turn and the turns appended after
    it are the assistant turns of the completion step; when the stored
    turns flatten and render and the completion service answers, the
    assistant turn is the reply, the rendering is returned and the
    returned error text is empty, so the failure is reported in the user
    turn alone. *)
Theorem description_failure_becomes_description (E : Collaborators) (self : ChatInterface)
    (user_input path : string) (history : list DisplayPair)
    (model_name custom_model : string) (e : Exn) :
  describe_image E path = Raise e →
  let swallowed := "Error getting image description: " +:+ str e in
  let actual_model := if String.eqb model_name "custom" then custom_model else model_name in
  let text := user_input +:+ newline +:+ "[Image Description: " +:+ swallowed +:+ "]" in
  let user_turn := mkMessage "user" (CList [TextBlock text]) true false in
  get_image_description E path = swallowed
  ∧ process_message E self user_input (Some path) true history model_name custom_model
    = process_message (with_description E swallowed) self user_input (Some path) true
        history model_name custom_model
  ∧ (∀ c data,
       client self = Some c →
       default false
         (vision_models
            !! (if String.eqb model_name "custom" then custom_model else model_name))
       = false →
       read_base64 E path = Ok data →
       mkMessage "user"
         (CList [TextBlock (user_input +:+ newline +:+ "[Image Description: "
                            +:+ swallowed +:+ "]")]) true false
       ∈ memory (fst (process_message E self user_input (Some path) true history
                        model_name custom_model)))
  ∧ (∀ c data,
       client self = Some c →
       default false (vision_models !! actual_model) = false →
       read_base64 E path = Ok data →
       ∃ tail,
         memory (fst (process_message E self user_input (Some path) true history
                        model_name custom_model))
         = prune (memory self) ++ user_turn :: tail
         ∧ tail ≠ [] ∧ Forall assistant_text tail)
  ∧ (∀ c data prior shown reply,
       client self = Some c →
       default false (vision_models !! actual_model) = false →
       read_base64 E path = Ok data →
       build_api_messages (memory self) = Ok prior →
       get_display_history (prune (memory self)) = Ok shown →
       create_completion E actual_model
         (prior ++ [mkApiMessage "user" (CList [TextBlock text])])
         (String.prefix "openai/" actual_model) = Ok (Some reply) →
       process_message E self user_input (Some path) true history model_name custom_model
       = (mkChatInterface
            (prune (memory self)
             ++ [user_turn; mkMessage "assistant" (CList [TextBlock reply]) false false])
            (Some c),
          (Some (shown ++ [(Some text, None); (None, Some reply)]), ""))).
Proof.
  intros Hd swallowed actual_model text user_turn.
  assert (Hg : get_image_description E path = swallowed).
  { unfold get_image_description. by rewrite Hd. }
  split; [done|]. split; [|split; [|split]].
  - unfold process_message, user_content, attach_image. rewrite Hg. done.
  - intros c data Hc Hv Hread.
    destruct (non_vision_memory E self user_input path history model_name custom_model
                c data Hc Hv Hread) as (tail & -> & _).
    rewrite Hg. apply elem_of_app. right. apply list_elem_of_here.
  - intros c data Hc Hv Hread.
    destruct (non_vision_memory E self user_input path history model_name custom_model
                c data Hc Hv Hread) as (tail & Hmem & Htail).
    rewrite Hg in Hmem. by exists tail.
  - intros c data prior shown reply Hc Hv Hread Hprior Hshown Hreply.
    assert (Hu : user_content E user_input (Some path) true actual_model
                 = Ok [TextBlock text]).
    { unfold user_content, attach_image. rewrite Hread, Hv. simpl. by rewrite Hg. }
    unfold process_message. rewrite Hc. fold actual_model. rewrite Hu. simpl.
    rewrite add_message_true. unfold call_api_handled, call_api, get_history.
    rewrite build_api_messages_snoc, Hprior. simpl. rewrite Hreply. simpl.
    rewrite add_message_false, prune_app.
    change (prune [mkMessage "user" (CList [TextBlock text]) true false])
      with [mkMessage "user" (CList [TextBlock text]) true false].
    rewrite <-(assoc_L (++)). simpl.
    rewrite get_display_history_app, Hshown. done.
Qed.

Lemma description_failure_becomes_description_witness :
  process_message (undescribed "Connection error." "It is a square.")
    (configured [Scenarios.hello; Scenarios.hi_there])
    "What is this?" (Some "cat.png") true [] "deepseek/deepseek-r1" ""
  = (configured
       [Scenarios.hello; Scenarios.hi_there;
        mkMessage "user"
          (CList [TextBlock ("What is this?" +:+ newline +:+ "[Image Description: "
                             +:+ "Error getting image description: Connection error."
                             +:+ "]")])
          true false;
        mkMessage "assistant" (CList [TextBlock "It is a square."]) false false],
     (Some [(Some "Hello", None); (None, Some "Hi there");
            (Some ("What is this?" +:+ newline +:+ "[Image Description: "
                   +:+ "Error getting image description: Connection error." +:+ "]"),
             None);
            (None, Some "It is a square.")],
      "")).
Proof.
  destruct (description_failure_becomes_description
              (undescribed "Connection error." "It is a square.")
              (configured [Scenarios.hello; Scenarios.hi_there])
              "What is this?" "cat.png" [] "deepseek/deepseek-r1" ""
              (External "Connection error.") eq_refl) as (_ & _ & _ & _ & H).
  exact (H _ "iVBORw0KGgo="
           [mkApiMessage "user" (CStr "Hello"); mkApiMessage "assistant" (CStr "Hi there")]
           [(Some "Hello", None); (None, Some "Hi there")] "It is a square."
           eq_refl eq_refl eq_refl eq_refl eq_refl eq_refl).
Defined.

(** What a call with no text and no image does on an empty store: the
    user turn is stored with an empty block list, building
    [api_messages] raises [IndexError] on it, the handler appends the
    error as an assistant turn, and rendering raises once more. *)
Example empty_submit_trace :
  process_message (answering "Hi there") (configured []) "" None false []
    "openai/gpt-4o-mini" ""
  = (configured
       [mkMessage "user" (CList []) false false;
        mkMessage "assistant"
          (CList [TextBlock "Error in API call: list index out of range"]) false false],
     (Some [], "Error: list index out of range")).
Proof. reflexivity. Qed.

(** C4: the code at the input the claim names.  With a configured client,
    a call with empty text and no image leaves a user turn whose content
    is the empty block list in the store. *)
Theorem empty_submit_stores_empty_content (E : Collaborators) (self : ChatInterface)
    (multimodal_enabled : bool) (history : list DisplayPair)
    (model_name custom_model : string) (c : Client) :
  client self = Some c →
  mkMessage "user" (CList []) false false
  ∈ memory (fst (process_message E self "" None multimodal_enabled history
                   model_name custom_model)).
Proof.
  intros Hc.
  destruct (process_message_store_shape E self "" None multimodal_enabled
              history model_name custom_model c [] Hc eq_refl) as (tail & -> & _).
  rewrite prune_app. apply elem_of_app. left. apply elem_of_app. right.
  replace (multimodal_enabled && bool_decide (None ≠ None)) with false
    by (by destruct multimodal_enabled).
  apply list_elem_of_here.
Qed.

Lemma empty_submit_stores_empty_content_witness :
  mkMessage "user" (CList []) false false
  ∈ memory (fst (process_message (answering "Hi there") (configured []) "" None false []
                   "openai/gpt-4o-mini" "")).
Proof.
  exact (empty_submit_stores_empty_content (answering "Hi there") (configured [])
           false [] "openai/gpt-4o-mini" ""
           (mkClient "https://openrouter.ai/api/v1" "sk-or-v1-0000") eq_refl).
Defined.

(** C2: the code at two calls that attach an image with no text, for a
    vision model.  Each stores a single image block with [has_image] set,
    which the prune rule keeps; the second call sends both images, and
    the completion service, asked to count, reports several. *)
Theorem image_only_turns_accumulate :
  let first := mkSubmit counting "" (Some "a.png") true [] "openai/o1" "" in
  let second := mkSubmit counting "" (Some "b.png") true [] "openai/o1" "" in
  payload_images
    <$> api_payload counting (submit (configured []) first) "" (Some "b.png") true
          "openai/o1" ""
  = Some 2
  ∧ api_payload counting (submit (configured []) first) "" (Some "b.png") true
      "openai/o1" ""
  = Some [mkApiMessage "user" (CList [ImageBlock "data:image/png;base64,iVBORw0KGgo="]);
          mkApiMessage "assistant" (CStr "at most one image");
          mkApiMessage "assistant" (CStr "Error in API call: 'text'");
          mkApiMessage "user" (CList [ImageBlock "data:image/png;base64,iVBORw0KGgo="])]
  ∧ memory (run (configured []) [first; second])
    = [mkMessage "user" (CList [ImageBlock "data:image/png;base64,iVBORw0KGgo="]) true false;
       mkMessage "assistant" (CList [TextBlock "at most one image"]) false false;
       mkMessage "assistant" (CList [TextBlock "Error in API call: 'text'"]) false false;
       mkMessage "user" (CList [ImageBlock "data:image/png;base64,iVBORw0KGgo="]) true false;
       mkMessage "assistant" (CList [TextBlock "several images"]) false false;
       mkMessage "assistant" (CList [TextBlock "Error in API call: 'text'"]) false false].
Proof. repeat split; reflexivity. Qed.

End Routing.


(** ** Images in the payload when every image comes with text *)

Module ImageWindow.
Import ChatMemory ChatMemoryFacts ChatInterface Fixtures Routing.

Lemma stored_images_app h1 h2 :
  stored_images (h1 ++ h2) = stored_images h1 + stored_images h2.
Proof. apply sum_list_with_app. Qed.

Lemma stored_images_prune h : stored_images (prune h) ≤ stored_images h.
Proof.
  induction h as [|msg h IH]; [done|]. unfold prune in *.
  destruct (decide (multi_block msg = false)).
  - rewrite filter_cons_True by done. unfold stored_images in *. simpl. lia.
  - rewrite filter_cons_False by done. unfold stored_images in *. simpl. lia.
Qed.

Lemma stored_images_assistant tail :
  Forall assistant_text tail → stored_images tail = 0.
Proof.
  induction 1 as [|msg tail [text ->] _ IH]; [done|].
  unfold stored_images in *. simpl. by rewrite IH.
Qed.

Lemma flattens_images msg m :
  flattens msg m → image_blocks (api_content m) ≤ image_blocks (content msg).
Proof.
  unfold flattens. intros [_ H]. destruct (content msg) as [s|blocks].
  - by rewrite H.
  - destruct (has_image msg).
    + by rewrite H.
    + destruct H as (text & rest & _ & ->). simpl. lia.
Qed.

Lemma payload_images_le h api_messages :
  build_api_messages h = Ok api_messages →
  payload_images api_messages ≤ stored_images h.
Proof.
  intros H%Projection.build_api_messages_Forall2.
  induction H as [|msg m h ms Hm _ IH]; [done|].
  apply flattens_images in Hm. unfold payload_images, stored_images in *. simpl. lia.
Qed.

(** The content of a user turn holds at most one image block, and none
    when the turn is not multi-block, provided the image came with text. *)
Lemma user_content_images E user_input image multimodal_enabled actual_model
    message_content :
  user_content E user_input image multimodal_enabled actual_model = Ok message_content →
  image_blocks (CList message_content) ≤ 1
  ∧ ((multimodal_enabled = true → image ≠ None → user_input ≠ "") →
     1 < length message_content ∨ image_blocks (CList message_content) = 0).
Proof.
  unfold user_content, attach_image.
  destruct image as [path|], multimodal_enabled; simpl;
    try (destruct (String.eqb_spec user_input ""); intros [= <-]; simpl;
         (split; [lia|by right])).
  destruct (read_base64 E path) as [data|e]; simpl; [|done].
  destruct (default false (vision_models !! actual_model)); simpl.
  - destruct (String.eqb_spec user_input "") as [->|Hne]; intros [= <-]; simpl.
    + split; [done|]. intros H. by destruct H.
    + split; [done|]. intros _. left. lia.
  - intros [= <-]. simpl. split; [lia|by right].
Qed.

(** A captioned call keeps a store without image blocks free of them. *)
Lemma submit_keeps_no_images self c :
  captioned c → stored_images (memory self) = 0 →
  stored_images (memory (submit self c)) = 0.
Proof.
  intros Hcap H0. unfold submit.
  destruct (client self) as [cl|] eqn:Hc.
  2:{ unfold process_message. by rewrite Hc. }
  destruct (user_content (env c) (user_input c) (image c) (multimodal_enabled c)
              (if String.eqb (model_name c) "custom" then custom_model c else model_name c))
    as [message_content|e] eqn:Hu.
  2:{ unfold process_message. by rewrite Hc, Hu. }
  destruct (process_message_store_shape _ _ _ _ _ (history c) _ _ _ _ Hc Hu)
    as (tail & -> & _ & Htail).
  rewrite stored_images_app, (stored_images_assistant _ Htail), prune_app,
    stored_images_app.
  pose proof (stored_images_prune (memory self)) as Hp.
  apply user_content_images in Hu as [_ Hu]. specialize (Hu Hcap).
  set (u := mkMessage "user" (CList message_content) _ false).
  assert (stored_images (prune [u]) = 0) as ->; [|lia].
  unfold prune. destruct Hu as [Hmulti|Hnone].
  - rewrite filter_cons_False; [done|].
    unfold multi_block. simpl. rewrite bool_decide_eq_true_2; done.
  - destruct (decide (multi_block u = false)).
    + rewrite filter_cons_True by done. unfold stored_images. simpl in *. lia.
    + by rewrite filter_cons_False.
Qed.

Lemma run_keeps_no_images self calls :
  Forall captioned calls → stored_images (memory self) = 0 →
  stored_images (memory (run self calls)) = 0.
Proof.
  intros H. revert self. induction H as [|c calls Hc _ IH]; intros self H0; [done|].
  simpl. apply IH. by apply submit_keeps_no_images.
Qed.

(** When every earlier call that attached an image also carried text,
    the [api_messages] of the next call hold at most one image block. *)
Lemma captioned_calls_send_one_image (client0 : option Client) (calls : list Submit)
    (E : Collaborators) (user_input : string) (image : option string)
    (multimodal_enabled : bool) (model_name custom_model : string)
    (api_messages : list ApiMessage) :
  Forall captioned calls →
  api_payload E (run (mkChatInterface [] client0) calls) user_input image
    multimodal_enabled model_name custom_model = Some api_messages →
  payload_images api_messages ≤ 1.
Proof.
  intros Hcalls. pose proof (run_keeps_no_images (mkChatInterface [] client0) calls
                               Hcalls eq_refl) as H0.
  unfold api_payload. destruct (client _); [|done].
  destruct (user_content _ _ _ _ _) as [message_content|e] eqn:Hu; [|done].
  destruct (build_api_messages _) as [ms|e] eqn:Hb; [|done].
  intros [= <-]. apply payload_images_le in Hb.
  apply user_content_images in Hu as [Hu _].
  pose proof (stored_images_prune (memory (run (mkChatInterface [] client0) calls))) as Hp.
  destruct (multimodal_enabled && bool_decide (image ≠ None)).
  - rewrite add_message_true, stored_images_app in Hb.
    unfold stored_images at 2 in Hb. simpl in *. lia.
  - rewrite add_message_false, stored_images_app in Hb.
    unfold stored_images at 2 in Hb. simpl in *. lia.
Qed.

End ImageWindow.


(** * Further properties of the code *)

(** ** Rendering *)

Module Rendering.
Import ChatMemory ChatMemoryFacts ChatInterface Scenarios.

Lemma show_first_image_shown blocks : show_first_image blocks true = [].
Proof. induction blocks as [|[text|url] rest IH]; simpl; done. Qed.

Lemma show_first_image_first blocks :
  show_first_image blocks false =
  match filter (λ b, is_image b = true) blocks with
  | ImageBlock image_url :: _ => [(Some (img_markup image_url), None)]
  | _ => []
  end.
Proof.
  induction blocks as [|[text|url] rest IH]; [done| |]; cbn [show_first_image].
  - by rewrite filter_cons_False.
  - rewrite filter_cons_True by done. by rewrite show_first_image_shown.
Qed.

(** X1: a user turn with [hide_prompt] set and a block list as content
    is rendered without its text and never raises: the rendering is the
    markup of the first image block of the list, and nothing at all when
    the list holds no image block. *)
Theorem display_hidden_prompt (msg : Message) (blocks : list ContentBlock) :
  role msg = "user" → content msg = CList blocks → hide_prompt msg = true →
  display_message msg =
  Ok (match filter (λ b, is_image b = true) blocks with
      | ImageBlock image_url :: _ => [(Some (img_markup image_url), None)]
      | _ => []
      end).
Proof.
  intros Hr Hc Hh. unfold display_message. rewrite Hr, Hc, Hh. simpl.
  by rewrite show_first_image_first.
Qed.

Lemma display_hidden_prompt_witness :
  display_message hidden_prompt
  = Ok [(Some "<img src='data:image/png;base64,iVBORw0KGgo=' width='400'>", None)].
Proof.
  exact (display_hidden_prompt hidden_prompt _ eq_refl eq_refl eq_refl).
Defined.

Lemma display_message_sides msg pairs :
  display_message msg = Ok pairs →
  if String.eqb (role msg) "user"
  then Forall (λ p : DisplayPair, is_Some p.1 ∧ p.2 = None) pairs ∧ length pairs ≤ 2
  else ∃ text, pairs = [(None, Some text)].
Proof.
  unfold display_message. destruct (String.eqb (role msg) "user").
  - destruct (content msg) as [s|blocks].
    + intros [= <-]. split; [|simpl; lia]. repeat constructor; by eexists.
    + destruct (hide_prompt msg).
      * intros [= <-]. rewrite show_first_image_first.
        destruct (filter _ blocks) as [|[text|url] rest]; simpl;
          (split; [|lia]); repeat constructor; by eexists.
      * destruct blocks as [|[text|url] rest]; simpl; try done.
        destruct rest as [|[text2|url2] rest]; simpl; try done;
          intros [= <-]; (split; [|simpl; lia]); repeat constructor; by eexists.
  - destruct (content msg) as [s|blocks].
    + intros [= <-]. by eexists.
    + destruct blocks as [|[text|url] rest]; simpl; try done.
      intros [= <-]. by eexists.
Qed.

(** X2: when the rendering succeeds, no row has both sides filled and
    there are at most twice as many rows as turns; a store of turns whose
    role is "user" gives rows with the assistant side empty, and a store
    with no turn of role "user" gives exactly one row per turn, each with
    the user side empty (any other role string is shown as the
    assistant). *)
Theorem display_rows_sides (h : list Message) (display : list DisplayPair) :
  get_display_history h = Ok display →
  Forall (λ p : DisplayPair, p.1 = None ∨ p.2 = None) display
  ∧ length display ≤ 2 * length h
  ∧ (Forall (λ msg, role msg = "user") h →
     Forall (λ p : DisplayPair, p.2 = None) display)
  ∧ (Forall (λ msg, role msg ≠ "user") h →
     length display = length h ∧ Forall (λ p : DisplayPair, p.1 = None) display).
Proof.
  revert display. induction h as [|msg h IH]; simpl; intros display.
  - intros [= <-]. split; [|split; [|split]]; [constructor|simpl; lia|by constructor|].
    intros _. split; [done|constructor].
  - destruct (display_message msg) as [pairs|e] eqn:Hm; simpl; [|done].
    destruct (get_display_history h) as [rest|e]; simpl; [|done].
    intros [= <-]. destruct (IH rest eq_refl) as (IH1 & IH2 & IH3 & IH4).
    apply display_message_sides in Hm.
    destruct (String.eqb_spec (role msg) "user") as [Hu|Hu].
    + destruct Hm as [Hm Hlen]. split; [|split; [|split]].
      * apply Forall_app. split; [|done].
        eapply Forall_impl; [exact Hm|]. intros p [_ Hp]. by right.
      * rewrite length_app. lia.
      * intros HF. apply Forall_cons in HF as [_ HF]. apply Forall_app. split.
        -- eapply Forall_impl; [exact Hm|]. by intros p [_ Hp].
        -- by apply IH3.
      * intros HF. apply Forall_cons in HF as [HF _]. done.
    + destruct Hm as [text ->]. split; [|split; [|split]].
      * constructor; [|done]. by left.
      * simpl. lia.
      * intros HF. apply Forall_cons in HF as [HF _]. done.
      * intros HF. apply Forall_cons in HF as [_ HF]. simpl.
        destruct (IH4 HF) as [-> HF']. split; [done|]. by constructor.
Qed.

Lemma display_rows_sides_witness :
  Forall (λ p : DisplayPair, p.1 = None ∨ p.2 = None)
    [(Some "Hello", None); (None, Some "Hi there")].
Proof.
  destruct (display_rows_sides [hello; hi_there]
              [(Some "Hello", None); (None, Some "Hi there")] eq_refl)
    as (H & _).
  exact H.
Defined.

Lemma get_display_history_elem h msg e :
  msg ∈ h → display_message msg = Raise e → ∃ e', get_display_history h = Raise e'.
Proof.
  intros Hin Hm. induction Hin as [msg h|msg other h _ IH]; simpl.
  - rewrite Hm. by eexists.
  - destruct (display_message other); simpl; [|by eexists].
    destruct (IH Hm) as [e' ->]. by eexists.
Qed.

(** X3: one turn that cannot be rendered makes the whole rendering fail,
    wherever it stands in the store; when the turns before it render, the
    exception raised is the one of that turn. *)
Theorem display_fails_on_one_turn (before after : list Message) (msg : Message) (e : Exn) :
  display_message msg = Raise e →
  (∃ e', get_display_history (before ++ msg :: after) = Raise e')
  ∧ (∀ shown, get_display_history before = Ok shown →
       get_display_history (before ++ msg :: after) = Raise e).
Proof.
  intros Hm. split.
  - eapply get_display_history_elem; [|exact Hm].
    apply elem_of_app. right. apply list_elem_of_here.
  - intros shown Hb. rewrite get_display_history_app, Hb. simpl. by rewrite Hm.
Qed.

Lemma display_fails_on_one_turn_witness :
  get_display_history [hello; lone_image; hi_there] = Raise (KeyError "text").
Proof.
  destruct (display_fails_on_one_turn [hello] [hi_there] lone_image (KeyError "text")
              eq_refl) as [_ H].
  exact (H [(Some "Hello", None)] eq_refl).
Defined.

End Rendering.


(** ** The store as a log *)

Module StoreLog.
Import ChatMemory ChatMemoryFacts ChatInterface Scenarios.

(** X4: [add_message] puts the new turn last and never reorders or
    alters what it keeps: the turns before the new one are a sublist of the
    old store, they include every old turn that is not multi-block, and
    they are the whole old store when [has_image] is set. *)
Theorem add_message_keeps_order (h : list Message) (r : string) (c : Content)
    (hi hp : bool) :
  ∃ kept,
    add_message h r c hi hp = kept ++ [mkMessage r c hi hp]
    ∧ sublist kept h
    ∧ (∀ msg, msg ∈ h → multi_block msg = false → msg ∈ kept)
    ∧ (hi = true → kept = h)
    ∧ length (add_message h r c hi hp) ≤ S (length h).
Proof.
  destruct hi.
  - exists h. rewrite add_message_true. repeat split; [done..|].
    rewrite length_app. simpl. lia.
  - exists (prune h). rewrite add_message_false. split; [done|]. split.
    { apply sublist_filter. }
    split; [|split; [done|]].
    + intros msg Hin Hm. apply list_elem_of_filter. done.
    + rewrite length_app. simpl. pose proof (length_filter (λ msg, multi_block msg = false) h).
      unfold prune. lia.
Qed.

Lemma add_message_keeps_order_witness :
  hello ∈ add_message [hello; mkMessage "user" Fixtures.picture true false]
            "assistant" (CStr "Hi there") false false.
Proof.
  destruct (add_message_keeps_order [hello; mkMessage "user" Fixtures.picture true false]
              "assistant" (CStr "Hi there") false false) as (kept & -> & _ & H & _).
  apply elem_of_app. left. apply H; [apply list_elem_of_here|reflexivity].
Defined.

Lemma prune_appends h ops :
  prune (appends h ops) =
  prune h ++ prune ((λ a, mkMessage (a_role a) (a_content a) (a_has_image a)
                              (a_hide_prompt a)) <$> ops).
Proof.
  revert h. induction ops as [|a ops IH]; intros h; simpl.
  - change (prune []) with (@nil Message). by rewrite (right_id_L [] (++)).
  - unfold appends in IH. rewrite IH. unfold append.
    rewrite Routing.prune_add_message, prune_app, <-(assoc_L (++)).
    f_equal. symmetry. apply (prune_app [_]).
Qed.

(** X5: restricted to the turns that are not multi-block, the store is
    an append-only log under any sequence of [add_message] calls: those
    turns of the old store are all kept, in order, followed by those of
    the appended turns; in particular a plain-text or single-block turn is
    never removed. *)
Theorem appends_keep_single_block_turns (h : list Message) (ops : list Append) :
  filter (λ msg, multi_block msg = false) (appends h ops)
  = filter (λ msg, multi_block msg = false) h
    ++ filter (λ msg, multi_block msg = false)
         ((λ a, mkMessage (a_role a) (a_content a) (a_has_image a) (a_hide_prompt a))
            <$> ops)
  ∧ (∀ msg, msg ∈ h → multi_block msg = false → msg ∈ appends h ops).
Proof.
  split; [apply prune_appends|].
  intros msg Hin Hm.
  assert (H : msg ∈ prune (appends h ops)).
  { rewrite prune_appends. apply elem_of_app. left. by apply list_elem_of_filter. }
  by apply list_elem_of_filter in H as [_ H].
Qed.

Lemma appends_keep_single_block_turns_witness :
  hello ∈ appends [hello]
            [mkAppend "user" Fixtures.picture true false;
             mkAppend "assistant" (CList [TextBlock "A red square."]) false false].
Proof.
  destruct (appends_keep_single_block_turns [hello]
              [mkAppend "user" Fixtures.picture true false;
               mkAppend "assistant" (CList [TextBlock "A red square."]) false false])
    as [_ H].
  apply H; [apply list_elem_of_here|reflexivity].
Defined.

End StoreLog.


(** ** Outcomes of one call *)

Module Calls.
Import ChatMemory ChatMemoryFacts ChatInterface Fixtures Scenarios Wiring.

Lemma build_api_messages_app h1 h2 :
  build_api_messages (h1 ++ h2) =
  (m1 ← build_api_messages h1; m2 ← build_api_messages h2; Ok (m1 ++ m2)).
Proof.
  induction h1 as [|msg h1 IH]; simpl.
  - by destruct (build_api_messages h2).
  - destruct (api_message msg) as [m|e]; simpl; [|done].
    rewrite IH. destruct (build_api_messages h1) as [m1|e]; simpl; [|done].
    by destruct (build_api_messages h2).
Qed.


Lemma eqb_empty_false (s : string) : s ≠ "" → String.eqb s "" = false.
Proof. intros H. by destruct (String.eqb_spec s ""). Qed.

(** A call without an image and with some text, on a store whose
    single-block turns flatten and render: what is returned and stored,
    by the outcome of the completion request. *)
Lemma text_call_outcome E self user_input image multimodal_enabled history
    model_name custom_model c prior shown :
  client self = Some c →
  user_input ≠ "" →
  multimodal_enabled && bool_decide (image ≠ None) = false →
  build_api_messages (prune (memory self)) = Ok prior →
  get_display_history (prune (memory self)) = Ok shown →
  let actual_model := if String.eqb model_name "custom" then custom_model else model_name in
  let outcome text error_msg :=
    (mkChatInterface
       (prune (memory self)
        ++ [mkMessage "user" (CList [TextBlock user_input]) false false;
            mkMessage "assistant" (CList [TextBlock text]) false false])
       (Some c),
     (Some (shown ++ [(Some user_input, None); (None, Some text)]), error_msg)) in
  process_message E self user_input image multimodal_enabled history
    model_name custom_model
  = match create_completion E actual_model
            (prior ++ [mkApiMessage "user" (CStr user_input)])
            (String.prefix "openai/" actual_model) with
    | Ok (Some reply) => outcome reply ""
    | Ok None => outcome "No response from API" "No response from API"
    | Raise e => outcome ("Error in API call: " +:+ str e) ("Error in API call: " +:+ str e)
    end.
Proof.
  intros Hc Hne Hflag Hprior Hshown actual_model outcome. subst outcome actual_model.
  unfold process_message. rewrite Hc, Hflag.
  assert (Hu : ∀ m, user_content E user_input image multimodal_enabled m
                    = Ok [TextBlock user_input]).
  { intros m. unfold user_content. rewrite (eqb_empty_false _ Hne).
    by destruct image, multimodal_enabled. }
  rewrite Hu, add_message_false. unfold call_api_handled, call_api, get_history.
  rewrite build_api_messages_app, Hprior. simpl.
  assert (Hd : ∀ text,
    get_display_history
      (add_message
         (prune (memory self) ++ [mkMessage "user" (CList [TextBlock user_input]) false false])
         "assistant" (CList [TextBlock text]) false false)
    = Ok (shown ++ [(Some user_input, None); (None, Some text)])
    ∧ add_message
        (prune (memory self) ++ [mkMessage "user" (CList [TextBlock user_input]) false false])
        "assistant" (CList [TextBlock text]) false false
      = prune (memory self)
        ++ [mkMessage "user" (CList [TextBlock user_input]) false false;
            mkMessage "assistant" (CList [TextBlock text]) false false]).
  { intros text. rewrite add_message_false, prune_app, prune_idemp.
    change (prune [mkMessage "user" (CList [TextBlock user_input]) false false])
      with [mkMessage "user" (CList [TextBlock user_input]) false false].
    rewrite <-(assoc_L (++)). simpl. split; [|done].
    rewrite get_display_history_app, Hshown. done. }
  destruct (create_completion E _ _ _) as [[reply|]|e]; simpl.
  - destruct (Hd reply) as [-> ->]. done.
  - destruct (Hd "No response from API") as [-> ->]. done.
  - destruct (Hd ("Error in API call: " +:+ str e)) as [-> ->]. done.
Qed.

(** X6: a call without an image and with non-empty text whose
    completion succeeds stores the user turn and the reply after the
    single-block turns of the old store, returns the rendering of the old
    turns followed by the row of the user text and the row of the reply,
    and returns an empty error text; the completion service is sent the
    old turns flattened, followed by the user text as a plain string. *)
Theorem text_call_success (E : Collaborators) (self : ChatInterface)
    (user_input : string) (image : option string) (multimodal_enabled : bool)
    (history : list DisplayPair) (model_name custom_model : string) (c : Client)
    (prior : list ApiMessage) (shown : list DisplayPair) (reply : string) :
  client self = Some c →
  user_input ≠ "" →
  multimodal_enabled && bool_decide (image ≠ None) = false →
  build_api_messages (prune (memory self)) = Ok prior →
  get_display_history (prune (memory self)) = Ok shown →
  create_completion E (if String.eqb model_name "custom" then custom_model else model_name)
    (prior ++ [mkApiMessage "user" (CStr user_input)])
    (String.prefix "openai/"
       (if String.eqb model_name "custom" then custom_model else model_name))
  = Ok (Some reply) →
  process_message E self user_input image multimodal_enabled history
    model_name custom_model
  = (mkChatInterface
       (prune (memory self)
        ++ [mkMessage "user" (CList [TextBlock user_input]) false false;
            mkMessage "assistant" (CList [TextBlock reply]) false false])
       (Some c),
     (Some (shown ++ [(Some user_input, None); (None, Some reply)]), "")).
Proof.
  intros Hc Hne Hflag Hprior Hshown Hreply.
  rewrite (text_call_outcome E self user_input image multimodal_enabled history
             model_name custom_model c prior shown Hc Hne Hflag Hprior Hshown).
  by rewrite Hreply.
Qed.

Lemma text_call_success_witness :
  process_message (answering "Hi there") (configured []) "Hello" None false []
    "openai/gpt-4o-mini" ""
  = (configured [hello; hi_there],
     (Some [(Some "Hello", None); (None, Some "Hi there")], "")).
Proof.
  exact (text_call_success (answering "Hi there") (configured []) "Hello" None false []
           "openai/gpt-4o-mini" "" _ [] [] "Hi there"
           eq_refl ltac:(discriminate) eq_refl eq_refl eq_refl eq_refl).
Defined.

(** X7: in such a call, when the completion request raises or returns no
    choices, the user turn is stored all the same, followed by an
    assistant turn that carries the error text ("Error in API call: ..."
    or "No response from API"); the same text is the row shown for the
    assistant and the returned error text. *)
Theorem text_call_failure (E : Collaborators) (self : ChatInterface)
    (user_input : string) (image : option string) (multimodal_enabled : bool)
    (history : list DisplayPair) (model_name custom_model : string) (c : Client)
    (prior : list ApiMessage) (shown : list DisplayPair) (r : result (option string)) :
  client self = Some c →
  user_input ≠ "" →
  multimodal_enabled && bool_decide (image ≠ None) = false →
  build_api_messages (prune (memory self)) = Ok prior →
  get_display_history (prune (memory self)) = Ok shown →
  create_completion E (if String.eqb model_name "custom" then custom_model else model_name)
    (prior ++ [mkApiMessage "user" (CStr user_input)])
    (String.prefix "openai/"
       (if String.eqb model_name "custom" then custom_model else model_name))
  = r →
  (∀ reply, r ≠ Ok (Some reply)) →
  let error_msg :=
    match r with
    | Raise e => "Error in API call: " +:+ str e
    | Ok _ => "No response from API"
    end in
  process_message E self user_input image multimodal_enabled history
    model_name custom_model
  = (mkChatInterface
       (prune (memory self)
        ++ [mkMessage "user" (CList [TextBlock user_input]) false false;
            mkMessage "assistant" (CList [TextBlock error_msg]) false false])
       (Some c),
     (Some (shown ++ [(Some user_input, None); (None, Some error_msg)]), error_msg)).
Proof.
  intros Hc Hne Hflag Hprior Hshown Hr Hfail error_msg. subst error_msg.
  rewrite (text_call_outcome E self user_input image multimodal_enabled history
             model_name custom_model c prior shown Hc Hne Hflag Hprior Hshown).
  rewrite Hr. destruct r as [[reply|]|e]; [|done..].
  by destruct (Hfail reply).
Qed.

Lemma text_call_failure_witness :
  process_message (refusing "Connection error.") (configured [hello; hi_there])
    "Are you there?" None false [] "deepseek/deepseek-r1" ""
  = (configured
       [hello; hi_there;
        mkMessage "user" (CList [TextBlock "Are you there?"]) false false;
        mkMessage "assistant"
          (CList [TextBlock "Error in API call: Connection error."]) false false],
     (Some [(Some "Hello", None); (None, Some "Hi there");
            (Some "Are you there?", None);
            (None, Some "Error in API call: Connection error.")],
      "Error in API call: Connection error.")).
Proof.
  exact (text_call_failure (refusing "Connection error.") (configured [hello; hi_there])
           "Are you there?" None false [] "deepseek/deepseek-r1" "" _
           [mkApiMessage "user" (CStr "Hello"); mkApiMessage "assistant" (CStr "Hi there")]
           [(Some "Hello", None); (None, Some "Hi there")]
           (Raise (External "Connection error."))
           eq_refl ltac:(discriminate) eq_refl eq_refl eq_refl eq_refl
           ltac:(discriminate)).
Defined.

Lemma error_text_nonempty (prefix s : string) : prefix ≠ "" → prefix +:+ s ≠ "".
Proof. by destruct prefix. Qed.

(** The inner [try] with its handler, in full: what it appends, and how
    what it returns relates to the store it leaves. *)
Lemma call_api_handled_result E actual_model h :
  let r := call_api_handled E actual_model h in
  ∃ tail,
    fst r = prune h ++ tail
    ∧ Forall assistant_text tail
    ∧ 1 ≤ length tail ≤ 2
    ∧ match snd r with
      | Ok (display, error_msg) =>
          get_display_history (fst r) = Ok display
          ∧ ((error_msg = ""
              ∧ ∃ api_messages reply,
                  build_api_messages h = Ok api_messages
                  ∧ create_completion E actual_model api_messages
                      (String.prefix "openai/" actual_model) = Ok (Some reply)
                  ∧ tail = [mkMessage "assistant" (CList [TextBlock reply]) false false])
             ∨ (error_msg ≠ ""
                ∧ tail = [mkMessage "assistant" (CList [TextBlock error_msg]) false false]))
      | Raise e => get_display_history (fst r) = Raise e
      end.
Proof.
  unfold call_api_handled, call_api, get_history.
  assert (Hone : ∀ text error_msg,
    error_msg ≠ "" → text = error_msg →
    let r := (add_message h "assistant" (CList [TextBlock text]) false false,
              display ← get_display_history
                          (add_message h "assistant" (CList [TextBlock text]) false false);
              Ok (display, error_msg)) in
    ∃ tail, fst r = prune h ++ tail ∧ Forall assistant_text tail ∧ 1 ≤ length tail ≤ 2
      ∧ match snd r with
        | Ok (display, error_msg) =>
            get_display_history (fst r) = Ok display
            ∧ ((error_msg = ""
                ∧ ∃ api_messages reply,
                    build_api_messages h = Ok api_messages
                    ∧ create_completion E actual_model api_messages
                        (String.prefix "openai/" actual_model) = Ok (Some reply)
                    ∧ tail = [mkMessage "assistant" (CList [TextBlock reply]) false false])
               ∨ (error_msg ≠ ""
                  ∧ tail = [mkMessage "assistant" (CList [TextBlock error_msg])
                              false false]))
        | Raise e => get_display_history (fst r) = Raise e
        end).
  { intros text error_msg Hne -> r. subst r. eexists [_]. simpl.
    rewrite add_message_false. split; [done|].
    split; [apply Forall_singleton; by eexists|]. split; [simpl; lia|].
    destruct (get_display_history _) as [display|e]; simpl; [|done].
    split; [done|]. right. done. }
  assert (Htwo : ∀ text e,
    get_display_history (add_message h "assistant" (CList [TextBlock text]) false false)
    = Raise e →
    let mem := add_message h "assistant" (CList [TextBlock text]) false false in
    let error_msg := "Error in API call: " +:+ str e in
    let r := (add_message mem "assistant" (CList [TextBlock error_msg]) false false,
              display ← get_display_history
                          (add_message mem "assistant" (CList [TextBlock error_msg])
                             false false);
              Ok (display, error_msg)) in
    ∃ tail, fst r = prune h ++ tail ∧ Forall assistant_text tail ∧ 1 ≤ length tail ≤ 2
      ∧ match snd r with
        | Ok (display, error_msg) =>
            get_display_history (fst r) = Ok display
            ∧ ((error_msg = ""
                ∧ ∃ api_messages reply,
                    build_api_messages h = Ok api_messages
                    ∧ create_completion E actual_model api_messages
                        (String.prefix "openai/" actual_model) = Ok (Some reply)
                    ∧ tail = [mkMessage "assistant" (CList [TextBlock reply]) false false])
               ∨ (error_msg ≠ ""
                  ∧ tail = [mkMessage "assistant" (CList [TextBlock error_msg])
                              false false]))
        | Raise e => get_display_history (fst r) = Raise e
        end).
  { intros text e Hfail mem error_msg r. subst r mem error_msg. eexists [_; _]. simpl.
    rewrite (add_message_false (add_message _ _ _ _ _)).
    rewrite Routing.prune_add_assistant, add_message_false, <-(assoc_L (++)).
    split; [done|]. split; [repeat constructor; by eexists|]. split; [simpl; lia|].
    rewrite add_message_false in Hfail.
    change (prune h ++ [?a; ?b]) with (prune h ++ [a] ++ [b]).
    rewrite (assoc_L (++)), get_display_history_app, Hfail. done. }
  destruct (build_api_messages h) as [api_messages|e]; simpl.
  2:{ apply (Hone _ _ (error_text_nonempty "Error in API call: " (str e) ltac:(done)) eq_refl). }
  destruct (create_completion E actual_model api_messages _) as [[reply|]|e] eqn:Hcc; simpl.
  3:{ apply (Hone _ _ (error_text_nonempty "Error in API call: " (str e) ltac:(done)) eq_refl). }
  - destruct (get_display_history _) as [display|e] eqn:Hd; simpl.
    + eexists [_]. rewrite add_message_false. split; [done|].
      split; [apply Forall_singleton; by eexists|]. split; [simpl; lia|].
      rewrite add_message_false in Hd. split; [done|]. left. split; [done|].
      by exists api_messages, reply.
    + by apply Htwo.
  - destruct (get_display_history _) as [display|e] eqn:Hd; simpl.
    + eexists [_]. rewrite add_message_false. split; [done|].
      split; [apply Forall_singleton; by eexists|]. split; [simpl; lia|].
      rewrite add_message_false in Hd. split; [done|]. right. done.
    + by apply Htwo.
Qed.

(** A call that got past the client check and the image [try], in terms
    of the inner [try]. *)
Lemma process_message_past_image E self user_input image multimodal_enabled history
    model_name custom_model c message_content :
  client self = Some c →
  user_content E user_input image multimodal_enabled
    (if String.eqb model_name "custom" then custom_model else model_name)
  = Ok message_content →
  let r := call_api_handled E
             (if String.eqb model_name "custom" then custom_model else model_name)
             (add_message (memory self) "user" (CList message_content)
                (multimodal_enabled && bool_decide (image ≠ None)) false) in
  process_message E self user_input image multimodal_enabled history
    model_name custom_model
  = (mkChatInterface (fst r) (Some c),
     match snd r with
     | Ok (display, error_msg) => (Some display, error_msg)
     | Raise e => (Some history, "Error: " +:+ str e)
     end).
Proof.
  intros Hc Hu r. subst r. unfold process_message. rewrite Hc, Hu.
  by destruct (call_api_handled _ _ _) as [h [[display error_msg]|e]].
Qed.

(** X8: what a call returns agrees with the store it leaves.  Once past
    the client check and the image step, the returned history is the
    rendering of the final store when that rendering succeeds; when it
    raises, the [history] argument is handed back with the error text
    "Error: ..." of that exception. *)
Theorem process_message_returns_rendering (E : Collaborators) (self : ChatInterface)
    (user_input : string) (image : option string) (multimodal_enabled : bool)
    (history : list DisplayPair) (model_name custom_model : string)
    (c : Client) (message_content : list ContentBlock) :
  client self = Some c →
  user_content E user_input image multimodal_enabled
    (if String.eqb model_name "custom" then custom_model else model_name)
  = Ok message_content →
  let r := process_message E self user_input image multimodal_enabled history
             model_name custom_model in
  match get_display_history (memory (fst r)) with
  | Ok display => fst (snd r) = Some display
  | Raise e => snd r = (Some history, "Error: " +:+ str e)
  end.
Proof.
  intros Hc Hu r. subst r.
  rewrite (process_message_past_image _ _ _ _ _ _ _ _ _ _ Hc Hu). simpl.
  destruct (call_api_handled_result E
              (if String.eqb model_name "custom" then custom_model else model_name)
              (add_message (memory self) "user" (CList message_content)
                 (multimodal_enabled && bool_decide (image ≠ None)) false))
    as (tail & _ & _ & _ & H).
  destruct (snd (call_api_handled _ _ _)) as [[display error_msg]|e].
  - destruct H as [-> _]. done.
  - rewrite H. done.
Qed.

Lemma process_message_returns_rendering_witness :
  snd (process_message (answering "A red square.") (configured [lone_image])
         "And this?" None false [(Some "kept", None)] "openai/o1" "")
  = (Some [(Some "kept", None)], "Error: 'text'").
Proof.
  exact (process_message_returns_rendering (answering "A red square.")
           (configured [lone_image]) "And this?" None false [(Some "kept", None)]
           "openai/o1" "" _ [TextBlock "And this?"] eq_refl eq_refl).
Defined.

(** X9: an empty error text is returned only on success: the completion
    service was sent [api_payload] and answered with a reply, that reply
    is the last stored turn, and the returned history is the rendering of
    the store. *)
Theorem empty_error_means_reply (E : Collaborators) (self : ChatInterface)
    (user_input : string) (image : option string) (multimodal_enabled : bool)
    (history : list DisplayPair) (model_name custom_model : string) :
  let r := process_message E self user_input image multimodal_enabled history
             model_name custom_model in
  let actual_model := if String.eqb model_name "custom" then custom_model else model_name in
  snd (snd r) = "" →
  ∃ api_messages reply display,
    api_payload E self user_input image multimodal_enabled model_name custom_model
    = Some api_messages
    ∧ create_completion E actual_model api_messages (String.prefix "openai/" actual_model)
      = Ok (Some reply)
    ∧ last (memory (fst r))
      = Some (mkMessage "assistant" (CList [TextBlock reply]) false false)
    ∧ fst (snd r) = Some display
    ∧ get_display_history (memory (fst r)) = Ok display.
Proof.
  intros r actual_model. subst r actual_model.
  destruct (client self) as [c|] eqn:Hc.
  2:{ unfold process_message. rewrite Hc. done. }
  destruct (user_content E user_input image multimodal_enabled
              (if String.eqb model_name "custom" then custom_model else model_name))
    as [message_content|e] eqn:Hu.
  2:{ unfold process_message. rewrite Hc, Hu. simpl. intros H.
      by apply error_text_nonempty in H. }
  rewrite (process_message_past_image _ _ _ _ _ _ _ _ _ _ Hc Hu). simpl.
  unfold api_payload. rewrite Hc, Hu.
  destruct (call_api_handled_result E
              (if String.eqb model_name "custom" then custom_model else model_name)
              (add_message (memory self) "user" (CList message_content)
                 (multimodal_enabled && bool_decide (image ≠ None)) false))
    as (tail & Hmem & _ & _ & H).
  destruct (snd (call_api_handled _ _ _)) as [[display error_msg]|e]; simpl.
  2:{ intros He. by apply error_text_nonempty in He. }
  intros ->. destruct H as [Hd [(_ & api_messages & reply & Hb & Hcc & ->)|[Hne _]]]; [|done].
  exists api_messages, reply, display. rewrite Hb, Hmem.
  split; [done|]. split; [done|]. split; [apply last_snoc|]. split; [done|].
  by rewrite <-Hmem.
Qed.

Lemma empty_error_means_reply_witness :
  ∃ api_messages reply display,
    api_payload (answering "Hi there") (configured []) "Hello" None false
      "openai/gpt-4o-mini" "" = Some api_messages
    ∧ create_completion (answering "Hi there") "openai/gpt-4o-mini" api_messages
        (String.prefix "openai/" "openai/gpt-4o-mini") = Ok (Some reply)
    ∧ last (memory (fst (process_message (answering "Hi there") (configured []) "Hello"
                           None false [] "openai/gpt-4o-mini" "")))
      = Some (mkMessage "assistant" (CList [TextBlock reply]) false false)
    ∧ fst (snd (process_message (answering "Hi there") (configured []) "Hello"
                  None false [] "openai/gpt-4o-mini" "")) = Some display
    ∧ get_display_history
        (memory (fst (process_message (answering "Hi there") (configured []) "Hello"
                        None false [] "openai/gpt-4o-mini" ""))) = Ok display.
Proof.
  exact (empty_error_means_reply (answering "Hi there") (configured []) "Hello"
           None false [] "openai/gpt-4o-mini" "" eq_refl).
Defined.

(** X10: a call never touches the client; it returns no history at all
    exactly when no client is configured; and it never removes, alters or
    reorders a turn that is not multi-block: those turns of the final
    store are those of the old store followed by at most three new ones. *)
Theorem process_message_frame (E : Collaborators) (self : ChatInterface)
    (user_input : string) (image : option string) (multimodal_enabled : bool)
    (history : list DisplayPair) (model_name custom_model : string) :
  let r := process_message E self user_input image multimodal_enabled history
             model_name custom_model in
  client (fst r) = client self
  ∧ (fst (snd r) = None ↔ client self = None)
  ∧ ∃ new,
      filter (λ msg, multi_block msg = false) (memory (fst r))
      = filter (λ msg, multi_block msg = false) (memory self) ++ new
      ∧ length new ≤ 3.
Proof.
  intros r. subst r.
  destruct (client self) as [c|] eqn:Hc.
  2:{ unfold process_message. rewrite Hc. simpl. split; [done|]. split; [by split|].
      exists []. rewrite (right_id_L [] (++)). split; [done|simpl; lia]. }
  destruct (user_content E user_input image multimodal_enabled
              (if String.eqb model_name "custom" then custom_model else model_name))
    as [message_content|e] eqn:Hu.
  2:{ unfold process_message. rewrite Hc, Hu. simpl. split; [done|].
      split; [split; done|]. exists []. rewrite (right_id_L [] (++)).
      split; [done|simpl; lia]. }
  rewrite (process_message_past_image _ _ _ _ _ _ _ _ _ _ Hc Hu). simpl.
  destruct (call_api_handled_result E
              (if String.eqb model_name "custom" then custom_model else model_name)
              (add_message (memory self) "user" (CList message_content)
                 (multimodal_enabled && bool_decide (image ≠ None)) false))
    as (tail & -> & Htail & Hlen & _).
  split; [done|]. split.
  { by destruct (snd (call_api_handled _ _ _)) as [[display error_msg]|e]. }
  fold (prune (memory self)).
  change (filter (λ msg, multi_block msg = false) ?l) with (prune l).
  rewrite prune_app, prune_idemp, Routing.prune_add_message, prune_app,
    <-(assoc_L (++)).
  eexists. split; [done|]. rewrite length_app.
  pose proof (length_filter (λ msg, multi_block msg = false) tail) as H1.
  pose proof (length_filter (λ msg, multi_block msg = false)
                [mkMessage "user" (CList message_content)
                   (multimodal_enabled && bool_decide (image ≠ None)) false]) as H2.
  unfold prune. simpl in *. lia.
Qed.

Lemma process_message_frame_witness :
  filter (λ msg, multi_block msg = false)
    (memory (fst (process_message (answering "A red square.")
                    (configured [hello; hi_there]) "What is this?" (Some "cat.png")
                    true [] "openai/o1" "")))
  = [hello; hi_there;
     mkMessage "assistant" (CList [TextBlock "A red square."]) false false].
Proof.
  destruct (process_message_frame (answering "A red square.")
              (configured [hello; hi_there]) "What is this?" (Some "cat.png")
              true [] "openai/o1" "") as (_ & _ & new & H & _).
  reflexivity.
Defined.

Lemma elem_of_prune h msg : msg ∈ h → multi_block msg = false → msg ∈ prune h.
Proof. intros. by apply list_elem_of_filter. Qed.

Lemma elem_of_add_message h r c hi hp msg :
  msg ∈ h → multi_block msg = false → msg ∈ add_message h r c hi hp.
Proof.
  intros Hin Hm. unfold add_message. apply elem_of_app. left.
  destruct hi; [done|by apply list_elem_of_filter].
Qed.

(** X11: a stored turn that cannot be rendered and is not multi-block
    (an empty block list, a lone image block) is never pruned, and from
    then on every call that gets past the client check and the image step
    returns the [history] argument with an error text "Error: ...",
    whatever the completion service answers; the turn is still stored
    afterwards. *)
Theorem unrenderable_turn_fails_every_call (E : Collaborators) (self : ChatInterface)
    (user_input : string) (image : option string) (multimodal_enabled : bool)
    (history : list DisplayPair) (model_name custom_model : string)
    (c : Client) (message_content : list ContentBlock) (msg : Message) (e0 : Exn) :
  client self = Some c →
  user_content E user_input image multimodal_enabled
    (if String.eqb model_name "custom" then custom_model else model_name)
  = Ok message_content →
  msg ∈ memory self →
  multi_block msg = false →
  display_message msg = Raise e0 →
  let r := process_message E self user_input image multimodal_enabled history
             model_name custom_model in
  (∃ e, snd r = (Some history, "Error: " +:+ str e))
  ∧ msg ∈ memory (fst r).
Proof.
  intros Hc Hu Hin Hm Hd r. subst r.
  rewrite (process_message_past_image _ _ _ _ _ _ _ _ _ _ Hc Hu). simpl.
  destruct (call_api_handled_result E
              (if String.eqb model_name "custom" then custom_model else model_name)
              (add_message (memory self) "user" (CList message_content)
                 (multimodal_enabled && bool_decide (image ≠ None)) false))
    as (tail & Hmem & _ & _ & H).
  assert (Hin' : msg ∈ fst (call_api_handled E
                   (if String.eqb model_name "custom" then custom_model else model_name)
                   (add_message (memory self) "user" (CList message_content)
                      (multimodal_enabled && bool_decide (image ≠ None)) false))).
  { rewrite Hmem. apply elem_of_app. left. apply elem_of_prune; [|done].
    by apply elem_of_add_message. }
  split; [|done].
  destruct (Rendering.get_display_history_elem _ _ _ Hin' Hd) as [e' He'].
  destruct (snd (call_api_handled _ _ _)) as [[display error_msg]|e].
  - destruct H as [H _]. congruence.
  - by exists e.
Qed.

Lemma unrenderable_turn_fails_every_call_witness :
  ∃ e, snd (process_message (answering "Hi there") (configured [empty_turn]) "Hello"
              None false [(Some "kept", None)] "openai/gpt-4o-mini" "")
       = (Some [(Some "kept", None)], "Error: " +:+ str e).
Proof.
  destruct (unrenderable_turn_fails_every_call (answering "Hi there")
              (configured [empty_turn]) "Hello" None false [(Some "kept", None)]
              "openai/gpt-4o-mini" "" _ [TextBlock "Hello"] empty_turn IndexError
              eq_refl eq_refl (list_elem_of_here _ _) eq_refl eq_refl) as [H _].
  exact H.
Defined.



(** X13: choosing "custom" in the model list makes the custom model name
    the model of the call, for the capability lookup as for the completion
    request: the call is the one made with that name chosen directly. *)
Theorem custom_model_is_used (E : Collaborators) (self : ChatInterface)
    (user_input : string) (image : option string) (multimodal_enabled : bool)
    (history : list DisplayPair) (model other : string) :
  model ≠ "custom" →
  process_message E self user_input image multimodal_enabled history "custom" model
  = process_message E self user_input image multimodal_enabled history model other.
Proof.
  intros Hne. unfold process_message.
  destruct (String.eqb_spec model "custom") as [Heq|_]; [done|].
  by change (String.eqb "custom" "custom") with true.
Qed.

Lemma custom_model_is_used_witness :
  process_message (answering "A red square.") (configured []) "What is this?"
    (Some "cat.png") true [] "custom" "openai/o1"
  = process_message (answering "A red square.") (configured []) "What is this?"
      (Some "cat.png") true [] "openai/o1" "".
Proof.
  exact (custom_model_is_used (answering "A red square.") (configured [])
           "What is this?" (Some "cat.png") true [] "openai/o1" "" ltac:(discriminate)).
Defined.

(** X14: the Configure API button always answers "API configured
    successfully!" and never touches the store; when the client
    constructor raised, the interface is left as it was, so a call made
    on a never-configured interface still answers "Please configure API
    settings first.". *)
Theorem configure_api_always_reports_success (self : ChatInterface)
    (made : result Client) :
  snd (configure_api self made) = "API configured successfully!"
  ∧ memory (fst (configure_api self made)) = memory self
  ∧ (∀ c, made = Ok c → client (fst (configure_api self made)) = Some c)
  ∧ (∀ e, made = Raise e →
       fst (configure_api self made) = self
       ∧ (client self = None →
          ∀ E user_input image multimodal_enabled history model_name custom_model,
            snd (process_message E (fst (configure_api self made)) user_input image
                   multimodal_enabled history model_name custom_model)
            = (None, "Please configure API settings first."))).
Proof.
  unfold configure_api, initialize_client. destruct made as [c|e]; simpl.
  - split; [done|]. split; [done|]. split; [by intros c' [= ->]|done].
  - split; [done|]. split; [done|]. split; [done|]. intros e' _. split; [done|].
    intros Hc E ui img mm hist mn cm. unfold process_message. by rewrite Hc.
Qed.

Lemma configure_api_always_reports_success_witness :
  configure_api init (Raise (External "Invalid URL")) = (init, "API configured successfully!").
Proof.
  destruct (configure_api_always_reports_success init (Raise (External "Invalid URL")))
    as (H1 & _ & _ & H2).
  destruct (H2 _ eq_refl) as [H3 _].
  revert H1 H3. generalize (configure_api init (Raise (External "Invalid URL"))).
  intros [s t]. simpl. by intros -> ->.
Defined.

(** X15: with an image attached, a readable file and a model listed as
    vision-capable, the completion service is sent the stored turns
    flattened, followed by the user turn as a raw block list: the text
    block when there is text, then the image as a PNG data URI.  The
    description service plays no part.  When the call has text, the user
    turn is no longer stored when the call returns; without text it is. *)
Theorem vision_image_is_attached (E : Collaborators) (self : ChatInterface)
    (user_input path : string) (history : list DisplayPair)
    (model_name custom_model : string) (c : Client) (data : string)
    (prior : list ApiMessage) :
  client self = Some c →
  vision_models !! (if String.eqb model_name "custom" then custom_model else model_name)
  = Some true →
  read_base64 E path = Ok data →
  build_api_messages (memory self) = Ok prior →
  let blocks :=
    (if String.eqb user_input "" then [] else [TextBlock user_input])
    ++ [ImageBlock ("data:image/png;base64," +:+ data)] in
  let after :=
    memory (fst (process_message E self user_input (Some path) true history
                   model_name custom_model)) in
  api_payload E self user_input (Some path) true model_name custom_model
  = Some (prior ++ [mkApiMessage "user" (CList blocks)])
  ∧ (∀ description,
       process_message (with_description E description) self user_input (Some path) true
         history model_name custom_model
       = process_message E self user_input (Some path) true history
           model_name custom_model)
  ∧ (user_input ≠ "" → mkMessage "user" (CList blocks) true false ∉ after)
  ∧ (user_input = "" → mkMessage "user" (CList blocks) true false ∈ after).
Proof.
  intros Hc Hv Hread Hprior blocks after. subst after.
  assert (Hu : ∀ E', read_base64 E' = read_base64 E →
                user_content E' user_input (Some path) true
                  (if String.eqb model_name "custom" then custom_model else model_name)
                = Ok blocks).
  { intros E' HE. unfold user_content, attach_image. by rewrite HE, Hread, Hv. }
  split; [|split; [|split]].
  - unfold api_payload. rewrite Hc, (Hu E eq_refl). simpl.
    rewrite add_message_true, build_api_messages_app, Hprior. done.
  - intros description. unfold process_message.
    rewrite (Hu E eq_refl), (Hu (with_description E description) eq_refl). done.
  - intros Hne Hin.
    destruct (Routing.process_message_store_shape E self user_input (Some path) true
                history model_name custom_model c blocks Hc (Hu E eq_refl))
      as (tail & Hmem & _ & Htail).
    rewrite Hmem in Hin. apply elem_of_app in Hin as [Hin|Hin].
    + apply list_elem_of_filter in Hin as [Hm _]. subst blocks.
      by rewrite (eqb_empty_false _ Hne) in Hm.
    + rewrite Forall_forall in Htail. by destruct (Htail _ Hin) as [text Ht].
  - intros ->.
    destruct (Routing.process_message_store_shape E self "" (Some path) true
                history model_name custom_model c blocks Hc (Hu E eq_refl))
      as (tail & -> & _).
    apply elem_of_app. left. apply elem_of_prune; [|done].
    apply elem_of_app. right. apply list_elem_of_here.
Qed.

Lemma vision_image_is_attached_witness :
  api_payload (answering "A red square.") (configured [hello; hi_there]) "What is this?"
    (Some "cat.png") true "custom" "x-ai/grok-2-vision-1212"
  = Some [mkApiMessage "user" (CStr "Hello"); mkApiMessage "assistant" (CStr "Hi there");
          mkApiMessage "user" picture].
Proof.
  destruct (vision_image_is_attached (answering "A red square.")
              (configured [hello; hi_there]) "What is this?" "cat.png" []
              "custom" "x-ai/grok-2-vision-1212" _ "iVBORw0KGgo="
              [mkApiMessage "user" (CStr "Hello"); mkApiMessage "assistant" (CStr "Hi there")]
              eq_refl eq_refl eq_refl eq_refl) as [H _].
  exact H.
Defined.

Lemma user_content_length E user_input image multimodal_enabled actual_model blocks :
  user_content E user_input image multimodal_enabled actual_model = Ok blocks →
  length blocks ≤ 2.
Proof.
  unfold user_content, attach_image.
  destruct image as [path|], multimodal_enabled; simpl;
    try (destruct (String.eqb user_input ""); intros [= <-]; simpl; lia).
  destruct (read_base64 E path) as [data|e]; simpl; [|done].
  destruct (default false (vision_models !! actual_model)); simpl.
  - destruct (String.eqb user_input ""); intros [= <-]; simpl; lia.
  - intros [= <-]. simpl. lia.
Qed.

Lemma submit_left_by_calls self call :
  Forall left_by_calls (memory self) → Forall left_by_calls (memory (submit self call)).
Proof.
  intros Hinv. unfold submit.
  destruct (client self) as [c|] eqn:Hc.
  2:{ unfold process_message. by rewrite Hc. }
  destruct (user_content (env call) (user_input call) (image call)
              (multimodal_enabled call)
              (if String.eqb (model_name call) "custom" then custom_model call
               else model_name call))
    as [blocks|e] eqn:Hu.
  2:{ unfold process_message. by rewrite Hc, Hu. }
  destruct (Routing.process_message_store_shape _ _ _ _ _ (history call) _ _ _ _ Hc Hu)
    as (tail & -> & _ & Htail).
  apply Forall_app. split.
  - apply Forall_forall. intros msg [Hm Hin]%list_elem_of_filter.
    apply elem_of_app in Hin as [Hin|Hin].
    + rewrite Forall_forall in Hinv. by apply Hinv.
    + apply list_elem_of_singleton in Hin as ->. right.
      split; [done|]. split; [done|]. exists blocks. split; [done|].
      unfold multi_block in Hm. simpl in Hm. apply bool_decide_eq_false in Hm. lia.
  - eapply Forall_impl; [exact Htail|]. intros msg H. by left.
Qed.

Lemma run_left_by_calls self calls :
  Forall left_by_calls (memory self) → Forall left_by_calls (memory (run self calls)).
Proof.
  revert self. induction calls as [|call calls IH]; intros self Hinv; [done|].
  simpl. apply IH. by apply submit_left_by_calls.
Qed.

(** X16: whatever the calls and the collaborators, every turn that a
    sequence of calls leaves in an initially empty store is a text-only
    assistant turn or a user turn with [hide_prompt] unset whose content
    is a list of at most one block: calls never store a plain string,
    never set [hide_prompt], and never leave a multi-block turn behind. *)
Theorem calls_leave_single_block_turns (client0 : option Client) (calls : list Submit) :
  let after := memory (run (mkChatInterface [] client0) calls) in
  Forall left_by_calls after
  ∧ Forall (λ msg, ∃ blocks, content msg = CList blocks) after
  ∧ Forall (λ msg, hide_prompt msg = false) after
  ∧ multi_count after = 0.
Proof.
  intros after. subst after.
  pose proof (run_left_by_calls (mkChatInterface [] client0) calls
                (Forall_nil_2 left_by_calls)) as H.
  split; [done|]. split; [|split].
  - eapply Forall_impl; [exact H|].
    intros msg [[text ->]|(_ & _ & blocks & Hb & _)]; by eexists.
  - eapply Forall_impl; [exact H|]. by intros msg [[text ->]|(_ & Hh & _)].
  - apply multi_count_zero. eapply Forall_impl; [exact H|].
    intros msg [[text ->]|(_ & _ & blocks & Hb & Hlen)]; [done|].
    unfold multi_block. rewrite Hb. apply bool_decide_eq_false. lia.
Qed.

Lemma user_content_texted E user_input image multimodal_enabled actual_model blocks :
  user_input ≠ "" →
  user_content E user_input image multimodal_enabled actual_model = Ok blocks →
  (∃ text, blocks = [TextBlock text]) ∨ 1 < length blocks.
Proof.
  intros Hne. unfold user_content, attach_image. rewrite (eqb_empty_false _ Hne).
  destruct image as [path|], multimodal_enabled; simpl;
    try (intros [= <-]; left; by eexists).
  destruct (read_base64 E path) as [data|e]; simpl; [|done].
  destruct (default false (vision_models !! actual_model)); simpl; intros [= <-].
  - right. simpl. lia.
  - left. by eexists.
Qed.

Lemma submit_keeps_text_turns self call :
  user_input call ≠ "" →
  Forall (λ msg, hide_prompt msg = false ∧ ∃ text, content msg = CList [TextBlock text])
    (memory self) →
  Forall (λ msg, hide_prompt msg = false ∧ ∃ text, content msg = CList [TextBlock text])
    (memory (submit self call)).
Proof.
  intros Hne Hinv. unfold submit.
  destruct (client self) as [c|] eqn:Hc.
  2:{ unfold process_message. by rewrite Hc. }
  destruct (user_content (env call) (user_input call) (image call)
              (multimodal_enabled call)
              (if String.eqb (model_name call) "custom" then custom_model call
               else model_name call))
    as [blocks|e] eqn:Hu.
  2:{ unfold process_message. by rewrite Hc, Hu. }
  destruct (Routing.process_message_store_shape _ _ _ _ _ (history call) _ _ _ _ Hc Hu)
    as (tail & -> & _ & Htail).
  apply Forall_app. split.
  - apply Forall_forall. intros msg [Hm Hin]%list_elem_of_filter.
    apply elem_of_app in Hin as [Hin|Hin].
    + rewrite Forall_forall in Hinv. by apply Hinv.
    + apply list_elem_of_singleton in Hin as ->. split; [done|].
      destruct (user_content_texted _ _ _ _ _ _ Hne Hu) as [[text ->]|Hlen];
        [by eexists|].
      unfold multi_block in Hm. simpl in Hm. apply bool_decide_eq_false in Hm. lia.
  - eapply Forall_impl; [exact Htail|]. intros msg [text ->]. split; [done|by eexists].
Qed.

Lemma text_turns_render h :
  Forall (λ msg, hide_prompt msg = false ∧ ∃ text, content msg = CList [TextBlock text]) h →
  (∃ display, get_display_history h = Ok display)
  ∧ (∃ api_messages, build_api_messages h = Ok api_messages).
Proof.
  induction 1 as [|msg h [Hh [text Hc]] _ [[display IHd] [api_messages IHa]]]; simpl.
  - split; by eexists.
  - rewrite IHd, IHa. unfold display_message, api_message. rewrite Hc, Hh. simpl.
    split.
    + destruct (String.eqb (role msg) "user"); simpl; by eexists.
    + destruct (has_image msg); simpl; by eexists.
Qed.

(** X17: when every call carries some text, the store never gets a turn
    that breaks rendering or flattening: after any such sequence of calls
    on an initially empty store every turn is a single text block, the
    store renders, and it flattens for the API. *)
Theorem texted_calls_always_render (client0 : option Client) (calls : list Submit) :
  Forall (λ call, user_input call ≠ "") calls →
  let after := memory (run (mkChatInterface [] client0) calls) in
  Forall (λ msg, ∃ text, content msg = CList [TextBlock text]) after
  ∧ (∃ display, get_display_history after = Ok display)
  ∧ (∃ api_messages, build_api_messages after = Ok api_messages).
Proof.
  intros Hcalls after. subst after.
  assert (H : Forall (λ msg, hide_prompt msg = false
                             ∧ ∃ text, content msg = CList [TextBlock text])
                (memory (run (mkChatInterface [] client0) calls))).
  { assert (Hgen : ∀ self,
      Forall (λ msg, hide_prompt msg = false
                     ∧ ∃ text, content msg = CList [TextBlock text]) (memory self) →
      Forall (λ msg, hide_prompt msg = false
                     ∧ ∃ text, content msg = CList [TextBlock text])
        (memory (run self calls))).
    { induction Hcalls as [|call calls Hne _ IH]; intros self Hinv; [done|].
      simpl. apply IH. by apply submit_keeps_text_turns. }
    apply Hgen. constructor. }
  split; [|by apply text_turns_render].
  eapply Forall_impl; [exact H|]. by intros msg [_ Ht].
Qed.

Lemma texted_calls_always_render_witness :
  ∃ display,
    get_display_history
      (memory (run (configured [])
                 [mkSubmit (answering "A red square.") "What is this?" (Some "cat.png")
                    true [] "openai/o1" "";
                  mkSubmit (refusing "Connection error.") "And now?" None false []
                    "deepseek/deepseek-r1" ""]))
    = Ok display.
Proof.
  destruct (texted_calls_always_render
              (Some (mkClient "https://openrouter.ai/api/v1" "sk-or-v1-0000"))
              [mkSubmit (answering "A red square.") "What is this?" (Some "cat.png")
                 true [] "openai/o1" "";
               mkSubmit (refusing "Connection error.") "And now?" None false []
                 "deepseek/deepseek-r1" ""]
              ltac:(repeat constructor; discriminate)) as (_ & H & _).
  exact H.
Defined.

(** X18: when every call that attaches an image also carries text, no
    image block is left in the store between calls, and the messages that
    the next call builds for the completion service hold at most one image
    block. *)
Theorem captioned_calls_bound_images (client0 : option Client) (calls : list Submit)
    (E : Collaborators) (user_input : string) (image : option string)
    (multimodal_enabled : bool) (model_name custom_model : string) :
  Forall captioned calls →
  stored_images (memory (run (mkChatInterface [] client0) calls)) = 0
  ∧ ∀ api_messages,
      api_payload E (run (mkChatInterface [] client0) calls) user_input image
        multimodal_enabled model_name custom_model = Some api_messages →
      payload_images api_messages ≤ 1.
Proof.
  intros Hcalls. split.
  - by apply ImageWindow.run_keeps_no_images.
  - intros api_messages. by apply ImageWindow.captioned_calls_send_one_image.
Qed.

Lemma captioned_calls_bound_images_witness :
  stored_images
    (memory (run (configured [])
               [mkSubmit (answering "A red square.") "What is this?" (Some "cat.png")
                  true [] "openai/o1" "";
                mkSubmit (answering "A blue circle.") "And this?" (Some "dog.png")
                  true [] "openai/o1" ""]))
  = 0.
Proof.
  destruct (captioned_calls_bound_images
              (Some (mkClient "https://openrouter.ai/api/v1" "sk-or-v1-0000"))
              [mkSubmit (answering "A red square.") "What is this?" (Some "cat.png")
                 true [] "openai/o1" "";
               mkSubmit (answering "A blue circle.") "And this?" (Some "dog.png")
                 true [] "openai/o1" ""]
              (answering "Hi") "Hello" None false "openai/o1" ""
              ltac:(repeat constructor; intros _ _; discriminate)) as [H _].
  exact H.
Defined.

(** X19: a call makes at most one completion request, with [api_payload]
    as its messages: replacing the completion service by one that gives
    the same answer to that request changes nothing in what the call
    returns and stores. *)
Theorem completion_sees_only_payload (E : Collaborators) (self : ChatInterface)
    (user_input : string) (image : option string) (multimodal_enabled : bool)
    (history : list DisplayPair) (model_name custom_model : string)
    (complete : string → list ApiMessage → bool → result (option string)) :
  (∀ api_messages,
     api_payload E self user_input image multimodal_enabled model_name custom_model
     = Some api_messages →
     let actual_model :=
       if String.eqb model_name "custom" then custom_model else model_name in
     complete actual_model api_messages (String.prefix "openai/" actual_model)
     = create_completion E actual_model api_messages
         (String.prefix "openai/" actual_model)) →
  process_message (mkCollaborators (read_base64 E) (describe_image E) complete) self
    user_input image multimodal_enabled history model_name custom_model
  = process_message E self user_input image multimodal_enabled history
      model_name custom_model.
Proof.
  intros H. symmetry. apply Routing.process_message_sends_payload; [done|done|].
  intros api_messages Hp. symmetry. by apply H.
Qed.

Lemma completion_sees_only_payload_witness :
  process_message
    (mkCollaborators (λ _, Ok "iVBORw0KGgo=") (λ _, Ok "a red square")
       (λ _ api_messages _,
          if bool_decide (length api_messages = 1) then Ok (Some "Hi there")
          else Raise (External "unexpected request")))
    (configured []) "Hello" None false [] "openai/gpt-4o-mini" ""
  = process_message (answering "Hi there") (configured []) "Hello" None false []
      "openai/gpt-4o-mini" "".
Proof.
  apply (completion_sees_only_payload (answering "Hi there") (configured []) "Hello"
           None false [] "openai/gpt-4o-mini" "").
  intros api_messages [= <-]. reflexivity.
Defined.

End Calls.
